(** * Spine fatal-signal handling (error.c)

    A shallow embedding of [src/error.c]: the fatal handler routine
    [spine_signal_handler], the sentinel-terminated table
    [spine_fatal_signals], and the two lifecycle operations
    [install_spine_signal_handler] and [uninstall_spine_signal_handler].

    The C code talks to the operating system through [sigaction], [signal],
    [fprintf (stderr, ...)], [backtrace], [backtrace_symbols] and [exit].
    Those calls are modelled as primitive commands of a small state monad
    with early exit, acting on an explicit process state: the kernel's
    per-signal action table, the global [set] record, the lines written to
    standard error and a log of the calls made, in order. *)

From Stdlib Require Import ZArith Lia.
From stdpp Require Import gmap strings pretty list.

Local Open Scope Z_scope.

(** ** Signal actions *)

(** The value of [sa_handler]: the two distinguished constants of
    <signal.h>, the address of this file's handler, or the address of a
    function that belongs to another component. *)
Inductive sighandler_t : Type :=
  | SIG_DFL
  | SIG_IGN
  | SpineHandler                      (* &spine_signal_handler *)
  | ForeignHandler (addr : positive). (* some other function *)

#[global] Instance sighandler_eq_dec : EqDecision sighandler_t.
Proof. solve_decision. Defined.

(** [struct sigaction], restricted to the three members the code touches.
    A signal set is the bit mask the kernel keeps: bit [s - 1] stands for
    signal [s]. *)
Record sigaction_t : Type := Sigaction {
  sa_handler : sighandler_t;
  sa_mask : Z;
  sa_flags : Z
}.

#[global] Instance sigaction_eq_dec : EqDecision sigaction_t.
Proof. solve_decision. Defined.

Definition sigemptyset : Z := 0.
Definition sigaddset (m sig : Z) : Z := Z.lor m (Z.shiftl 1 (sig - 1)).

(** ** What the build and the C library fix

    <signal.h>, the C library's [signal] and the configure script are not
    part of the unit; what the code takes from them is collected here.
    [signal_mask] and [signal_flags] are the [sa_mask] and [sa_flags] that
    the library's [signal (sig, h)] registers together with [h]: POSIX
    leaves them to the implementation. *)
Record platform : Type := Platform {
  SIGINT : Z;
  SIGPIPE : Z;
  SIGSEGV : Z;
  SIGBUS : Z;
  SIGFPE : Z;
  SIGQUIT : Z;
  SIGSYS : Z;
  SIGABRT : Z;
  SA_RESTART : Z;
  signal_mask : Z -> Z;
  signal_flags : Z -> Z;
  HAVE_EXECINFO_H : bool
}.

(** [static int spine_fatal_signals[]], sentinel included. *)
Definition spine_fatal_signals (P : platform) : list Z :=
  [SIGINT P; SIGPIPE P; SIGSEGV P; SIGBUS P; SIGFPE P; SIGQUIT P;
   SIGSYS P; SIGABRT P; 0].

(** The entries in front of the sentinel. *)
Definition monitored_signals (P : platform) : list Z :=
  [SIGINT P; SIGPIPE P; SIGSEGV P; SIGBUS P; SIGFPE P; SIGQUIT P;
   SIGSYS P; SIGABRT P].

(** A usable <signal.h>: signal numbers are positive and pairwise distinct
    (the [switch] of the handler would not compile otherwise), and
    [SA_RESTART] is a non-zero flag. *)
Definition platform_ok (P : platform) : bool :=
  forallb (fun s => 0 <? s) (monitored_signals P)
  && bool_decide (NoDup (monitored_signals P))
  && negb (SA_RESTART P =? 0).

(** Linux numbering with the GNU C library: [signal] has BSD semantics,
    it blocks the signal itself and restarts system calls. *)
Definition linux_glibc : platform := {|
  SIGINT := 2; SIGPIPE := 13; SIGSEGV := 11; SIGBUS := 7; SIGFPE := 8;
  SIGQUIT := 3; SIGSYS := 31; SIGABRT := 6;
  SA_RESTART := 0x10000000;
  signal_mask := fun sig => sigaddset sigemptyset sig;
  signal_flags := fun _ => 0x10000000;
  HAVE_EXECINFO_H := true
|}.

(** Linux numbering with a C library whose [signal] registers the handler
    with an empty mask and [SA_RESTART] (musl does), built without
    <execinfo.h>, which that library does not ship. *)
Definition linux_musl : platform := {|
  SIGINT := 2; SIGPIPE := 13; SIGSEGV := 11; SIGBUS := 7; SIGFPE := 8;
  SIGQUIT := 3; SIGSYS := 31; SIGABRT := 6;
  SA_RESTART := 0x10000000;
  signal_mask := fun _ => sigemptyset;
  signal_flags := fun _ => 0x10000000;
  HAVE_EXECINFO_H := false
|}.


(** ** Process state *)

(** The members of the global [set] that this unit reads and writes. *)
Record settings : Type := Settings {
  exit_code : Z;
  exit_stack : list Z;
  exit_size : Z
}.

(** One line on standard error; one constructor per format string. *)
Inductive stderr_line : Type :=
  | Fatal (stamp reason : string)     (* "%s FATAL: Spine <reason>\n" *)
  | Generating (lines : Z)   (* "Generating backtrace...%ld line(s)...\n" *)
  | Frame (row : Z) (symbol : string).  (* "%3d: %s\n" *)

#[global] Instance stderr_line_eq_dec : EqDecision stderr_line.
Proof. solve_decision. Defined.

Definition newline : string := String (Ascii.ascii_of_nat 10) EmptyString.

(** ["%3d"]: decimal, padded with blanks on the left to three columns. *)
Definition pad3 (s : string) : string :=
  String.concat "" (replicate (3 - String.length s)%nat " "%string) +:+ s.

(** The bytes [fprintf] sends for a line. *)
Definition render (l : stderr_line) : string :=
  match l with
  | Fatal stamp reason => stamp +:+ " FATAL: Spine " +:+ reason +:+ newline
  | Generating lines =>
      "Generating backtrace..." +:+ pretty lines +:+ " line(s)..." +:+ newline
  | Frame row symbol => pad3 (pretty row) +:+ ": " +:+ symbol +:+ newline
  end.

(** The calls and stores the code performs, in program order. *)
Inductive event : Type :=
  | CallSignal (sig : Z) (h : sighandler_t)
  | CallSigactionGet (sig : Z)
  | CallSigactionSet (sig : Z) (act : sigaction_t)
  | StoreExitCode (v : Z)
  | StoreExitSize (v : Z)
  | CallStrftime
  | WriteStderr (l : stderr_line)
  | CallBacktrace (size : Z)
  | CallBacktraceSymbols (size : Z)
  | CallFree
  | CallExit (status : Z).

#[global] Instance event_eq_dec : EqDecision event.
Proof. solve_decision. Defined.

Record process : Type := Process {
  sigtab : gmap Z sigaction_t;
  set : settings;
  stderr : list stderr_line;
  calls : list event
}.

(** After [execve] every caught signal is back at its default action: a
    signal without an entry in [sigtab] has the default action. *)
Definition initial_action : sigaction_t := Sigaction SIG_DFL sigemptyset 0.

Definition action_of (t : gmap Z sigaction_t) (sig : Z) : sigaction_t :=
  default initial_action (t !! sig).

(** The disposition of a signal: what [sigaction (sig, NULL, &sa)] reports
    in [sa.sa_handler]. *)
Definition disposition (p : process) (sig : Z) : sighandler_t :=
  sa_handler (action_of (sigtab p) sig).

(** What the surroundings supply when the handler runs: the text
    [strftime] leaves in [logtime], the return addresses on the call stack
    (innermost first), and the symbol resolver ([None]: [backtrace_symbols]
    returns [NULL]). *)
Record environment : Type := Environment {
  logtime : string;
  call_stack : list Z;
  symbol_table : option (Z -> string)
}.

(** ** Commands

    A command runs on a process and either returns a value or ends the
    process with an exit status; nothing runs after [exit]. *)
Inductive outcome (A : Type) : Type :=
  | Returned (a : A) (p : process)
  | Exited (status : Z) (p : process).
Arguments Returned {A} a p.
Arguments Exited {A} status p.

Definition M (A : Type) : Type := process -> outcome A.

Definition ret {A : Type} (a : A) : M A := fun p => Returned a p.

Definition bind {A B : Type} (m : M A) (k : A -> M B) : M B :=
  fun p =>
    match m p with
    | Returned a p' => k a p'
    | Exited status p' => Exited status p'
    end.

Notation "'let*' x ':=' m 'in' k" := (bind m (fun x => k))
  (at level 10, x name, m at level 100, k at level 200).

(** The process as the command leaves it. *)
Definition final {A : Type} (o : outcome A) : process :=
  match o with
  | Returned _ p => p
  | Exited _ p => p
  end.

Definition exit_status {A : Type} (o : outcome A) : option Z :=
  match o with
  | Returned _ _ => None
  | Exited status _ => Some status
  end.

Definition called (e : event) (p : process) : process :=
  Process (sigtab p) (set p) (stderr p) (calls p ++ [e]).

Definition with_sigtab (t : gmap Z sigaction_t) (p : process) : process :=
  Process t (set p) (stderr p) (calls p).

Definition with_set (s : settings) (p : process) : process :=
  Process (sigtab p) s (stderr p) (calls p).

(** [(int) v] for a [long] [v]. *)
Definition int_of_long (v : Z) : Z := (v + 2 ^ 31) mod 2 ^ 32 - 2 ^ 31.

Section Spine.

Variable P : platform.
Variable E : environment.

(** [sigaction (sig, NULL, &sa)] *)
Definition sigaction_get (sig : Z) : M sigaction_t :=
  fun p => Returned (action_of (sigtab p) sig) (called (CallSigactionGet sig) p).

(** [sigaction (sig, &sa, NULL)] *)
Definition sigaction_set (sig : Z) (sa : sigaction_t) : M unit :=
  fun p =>
    Returned tt
      (called (CallSigactionSet sig sa) (with_sigtab (<[sig := sa]> (sigtab p)) p)).

(** [signal (sig, h)]: registers [h] the way the C library does and
    returns the handler that was in place. *)
Definition signal (sig : Z) (h : sighandler_t) : M sighandler_t :=
  fun p =>
    Returned (sa_handler (action_of (sigtab p) sig))
      (called (CallSignal sig h)
         (with_sigtab
            (<[sig := Sigaction h (signal_mask P sig) (signal_flags P sig)]> (sigtab p))
            p)).

(** [set.exit_code = v] *)
Definition store_exit_code (v : Z) : M unit :=
  fun p =>
    Returned tt
      (called (StoreExitCode v)
         (with_set (Settings v (exit_stack (set p)) (exit_size (set p))) p)).

(** [set.exit_size] *)
Definition load_exit_size : M Z := fun p => Returned (exit_size (set p)) p.

(** [set.exit_size = v] *)
Definition store_exit_size (v : Z) : M unit :=
  fun p =>
    Returned tt
      (called (StoreExitSize v)
         (with_set (Settings (exit_code (set p)) (exit_stack (set p)) v) p)).

(** [time], [localtime_r], [get_date_format] and [strftime]: the text left
    in [logtime]. *)
Definition strftime : M string :=
  fun p => Returned (logtime E) (called CallStrftime p).

(** [fprintf (stderr, ...)] *)
Definition fprintf_stderr (l : stderr_line) : M unit :=
  fun p =>
    Returned tt
      (called (WriteStderr l) (Process (sigtab p) (set p) (stderr p ++ [l]) (calls p))).

(** [backtrace (set.exit_stack, size)]: stores at most [size] return
    addresses at the start of the buffer and returns how many. *)
Definition backtrace (size : Z) : M Z :=
  fun p =>
    let frames := take (Z.to_nat size) (call_stack E) in
    Returned (Z.of_nat (length frames))
      (called (CallBacktrace size)
         (with_set
            (Settings (exit_code (set p))
               (frames ++ drop (length frames) (exit_stack (set p)))
               (exit_size (set p)))
            p)).

(** [backtrace_symbols (set.exit_stack, size)]: [NULL], or one string for
    each of the first [size] addresses of the buffer. *)
Definition backtrace_symbols (size : Z) : M (option (list string)) :=
  fun p =>
    Returned
      (match symbol_table E with
       | None => None
       | Some symbol => Some (map symbol (take (Z.to_nat size) (exit_stack (set p))))
       end)
      (called (CallBacktraceSymbols size) p).

(** [free (exit_strings)] *)
Definition free : M unit := fun p => Returned tt (called CallFree p).

(** [exit (status)] *)
Definition exit {A : Type} (status : Z) : M A :=
  fun p => Exited status (called (CallExit status) p).

(** [for (row = ...; row < set.exit_size; row++) fprintf (...)], with
    [todo] the number of rows still below [set.exit_size]. *)
Fixpoint print_frames (exit_strings : list string) (row : Z) (todo : nat) : M unit :=
  match todo with
  | O => ret tt
  | S todo' =>
      let* _ := fprintf_stderr
                  (Frame row (default ""%string (exit_strings !! Z.to_nat row))) in
      print_frames exit_strings (row + 1) todo'
  end.

(** The block under [#ifdef HAVE_EXECINFO_H]. *)
Definition generate_backtrace : M unit :=
  let* size := load_exit_size in
  let* _ := fprintf_stderr (Generating size) in
  if size =? 0 then ret tt
  else
    let* captured := backtrace (int_of_long size) in
    let* _ := store_exit_size captured in
    let* size' := load_exit_size in
    let* exit_strings := backtrace_symbols (int_of_long size') in
    match exit_strings with
    | None => ret tt
    | Some strings =>
        let* size'' := load_exit_size in
        let* _ := print_frames strings 0 (Z.to_nat size'') in
        free
    end.

(** [static void spine_signal_handler (int spine_signal)]; the [switch]
    is read case by case, in the order of the source. *)
Definition spine_signal_handler (spine_signal : Z) : M unit :=
  let* _ := signal spine_signal SIG_DFL in
  let* _ := store_exit_code spine_signal in
  let* stamp := strftime in
  if spine_signal =? SIGABRT P then
    fprintf_stderr (Fatal stamp "Interrupted by Abort Signal")
  else if spine_signal =? SIGINT P then
    fprintf_stderr (Fatal stamp "Interrupted by Console Operator")
  else if spine_signal =? SIGSEGV P then
    let* _ := fprintf_stderr (Fatal stamp "Encountered a Segmentation Fault") in
    let* _ := (if HAVE_EXECINFO_H P then generate_backtrace else ret tt) in
    exit 1
  else if spine_signal =? SIGBUS P then
    fprintf_stderr (Fatal stamp "Encountered a Bus Error")
  else if spine_signal =? SIGFPE P then
    fprintf_stderr (Fatal stamp "Encountered a Floating Point Exception")
  else if spine_signal =? SIGQUIT P then
    fprintf_stderr (Fatal stamp "Encountered a Keyboard Quit Command")
  else if spine_signal =? SIGPIPE P then
    fprintf_stderr (Fatal stamp "Encountered a Broken Pipe")
  else
    fprintf_stderr
      (Fatal stamp
         ("Encountered An Unhandled Exception Signal Number: '"
          +:+ pretty spine_signal +:+ "'")).

(** [for (i = 0; spine_fatal_signals[i]; ++i) body], over the rest of the
    table from index [i] on. *)
Fixpoint for_each_signal (body : Z -> M unit) (table : list Z) : M unit :=
  match table with
  | [] => ret tt
  | sig :: rest =>
      if sig =? 0 then ret tt
      else let* _ := body sig in for_each_signal body rest
  end.

Definition install_with_sigaction (sig : Z) : M unit :=
  let* sa := sigaction_get sig in
  if decide (sa_handler sa = SIG_DFL) then
    sigaction_set sig (Sigaction SpineHandler sigemptyset (SA_RESTART P))
  else ret tt.

Definition install_with_signal (sig : Z) : M unit :=
  let* ohandler := signal sig SpineHandler in
  if decide (ohandler <> SIG_DFL) then
    let* _ := signal sig ohandler in ret tt
  else ret tt.

(** [void install_spine_signal_handler (void)] *)
Definition install_spine_signal_handler : M unit :=
  let* _ := for_each_signal install_with_sigaction (spine_fatal_signals P) in
  for_each_signal install_with_signal (spine_fatal_signals P).

Definition uninstall_with_sigaction (sig : Z) : M unit :=
  let* sa := sigaction_get sig in
  if decide (sa_handler sa = SpineHandler) then
    sigaction_set sig (Sigaction SIG_DFL (sa_mask sa) (sa_flags sa))
  else ret tt.

Definition uninstall_with_signal (sig : Z) : M unit :=
  let* ohandler := signal sig SIG_DFL in
  if decide (ohandler <> SpineHandler) then
    let* _ := signal sig ohandler in ret tt
  else ret tt.

(** [void uninstall_spine_signal_handler (void)] *)
Definition uninstall_spine_signal_handler : M unit :=
  let* _ := for_each_signal uninstall_with_sigaction (spine_fatal_signals P) in
  for_each_signal uninstall_with_signal (spine_fatal_signals P).

End Spine.

(** ** Vocabulary of the statements *)

(** A signal of the table, sentinel apart. *)
Definition monitored (P : platform) (sig : Z) : Prop := sig ∈ monitored_signals P.

#[global] Instance monitored_dec P sig : Decision (monitored P sig).
Proof. unfold monitored. apply _. Defined.

(** The effect of one pass of install and of uninstall on the action of a
    table signal, as a function of the action found. *)
Definition install_action (P : platform) (sig : Z) (a : sigaction_t) : sigaction_t :=
  Sigaction (if decide (sa_handler a = SIG_DFL) then SpineHandler else sa_handler a)
    (signal_mask P sig) (signal_flags P sig).

Definition uninstall_action (P : platform) (sig : Z) (a : sigaction_t) : sigaction_t :=
  Sigaction (if decide (sa_handler a = SpineHandler) then SIG_DFL else sa_handler a)
    (signal_mask P sig) (signal_flags P sig).

(** The effect of a logged call on the kernel's action table. *)
Definition apply_event (P : platform) (t : gmap Z sigaction_t) (e : event)
  : gmap Z sigaction_t :=
  match e with
  | CallSignal sig h =>
      <[sig := Sigaction h (signal_mask P sig) (signal_flags P sig)]> t
  | CallSigactionSet sig sa => <[sig := sa]> t
  | _ => t
  end.

Definition replay (P : platform) (es : list event) (t : gmap Z sigaction_t)
  : gmap Z sigaction_t :=
  foldl (apply_event P) t es.

(** Calls that neither touch the action table nor the exit code: time
    formatting, output, backtrace capture and termination. *)
Definition reporting (e : event) : bool :=
  match e with
  | CallSignal _ _ | CallSigactionGet _ | CallSigactionSet _ _
  | StoreExitCode _ => false
  | _ => true
  end.

(** Calls that write the action table. *)
Definition touches_table (e : event) : bool :=
  match e with
  | CallSignal _ _ | CallSigactionSet _ _ => true
  | _ => false
  end.

Definition is_fatal_line (l : stderr_line) : bool :=
  match l with Fatal _ _ => true | _ => false end.

Definition is_frame_line (l : stderr_line) : bool :=
  match l with Frame _ _ => true | _ => false end.

(** What a command added to standard error and to the call log. *)
Definition written {A : Type} (p : process) (o : outcome A) : list stderr_line :=
  drop (length (stderr p)) (stderr (final o)).

Definition performed {A : Type} (p : process) (o : outcome A) : list event :=
  drop (length (calls p)) (calls (final o)).

(** The reason texts as the specification lists them, by signal. *)
Definition spec_reason (P : platform) (sig : Z) : string :=
  if decide (sig = SIGABRT P) then "Interrupted by Abort Signal"
  else if decide (sig = SIGINT P) then "Interrupted by Console Operator"
  else if decide (sig = SIGSEGV P) then "Encountered a Segmentation Fault"
  else if decide (sig = SIGBUS P) then "Encountered a Bus Error"
  else if decide (sig = SIGFPE P) then "Encountered a Floating Point Exception"
  else if decide (sig = SIGQUIT P) then "Encountered a Keyboard Quit Command"
  else if decide (sig = SIGPIPE P) then "Encountered a Broken Pipe"
  else "Encountered An Unhandled Exception Signal Number: '" +:+ pretty sig +:+ "'".

(** The [switch] of the handler takes [case SIGSEGV]. *)
Definition segv_path (P : platform) (sig : Z) : bool :=
  negb (sig =? SIGABRT P) && negb (sig =? SIGINT P) && (sig =? SIGSEGV P).

(** The frame lines the loop of the handler prints from [row] on. *)
Fixpoint frame_lines (exit_strings : list string) (row : Z) (todo : nat)
  : list stderr_line :=
  match todo with
  | O => []
  | S todo' =>
      Frame row (default ""%string (exit_strings !! Z.to_nat row))
      :: frame_lines exit_strings (row + 1) todo'
  end.

(** Sample processes and surroundings. *)
Definition fresh_process (size : Z) : process :=
  Process ∅ (Settings 0 [] size) [] [].

Definition sample_environment : environment :=
  Environment "2026-01-01 00:00:00" [4198400; 4198912; 4199424; 4199936]
    (Some (fun a => "spine() [" +:+ pretty a +:+ "]")).

Definition stripped_environment : environment :=
  Environment "2026-01-01 00:00:00" [4198400; 4198912; 4199424; 4199936] None.

(** A process in which another component owns [SIGPIPE] (13), [SIGQUIT]
    (3) is ignored and [SIGINT] (2) already has this file's handler. *)
Definition shared_process : process :=
  Process
    {[ 13 := Sigaction (ForeignHandler 1) sigemptyset 4;
       3 := Sigaction SIG_IGN sigemptyset 0;
       2 := Sigaction SpineHandler sigemptyset 0x10000000 ]}
    (Settings 0 [] 0) [] [].

(** The same without this file's handler anywhere. *)
Definition foreign_process : process :=
  Process
    {[ 13 := Sigaction (ForeignHandler 1) sigemptyset 4;
       3 := Sigaction SIG_IGN sigemptyset 0 ]}
    (Settings 0 [] 0) [] [].

(** A loop body that returns, rewrites the action of its own signal by [f]
    and leaves [set] and standard error alone. *)
Definition rewrites_action (body : Z -> M unit)
    (f : Z -> sigaction_t -> sigaction_t) : Prop :=
  forall sig p, exists p',
    body sig p = Returned tt p'
    /\ (forall s, action_of (sigtab p') s =
                  if decide (s = sig) then f sig (action_of (sigtab p) sig)
                  else action_of (sigtab p) s)
    /\ set p' = set p /\ stderr p' = stderr p.

(** One [case] label of the handler's [switch]. *)
Ltac switch_on a b :=
  destruct (Z.eqb_spec a b); cbv beta iota;
  [rewrite ?decide_True by assumption | rewrite ?decide_False by assumption].

(** A loop body that adds to the call log the calls [g] of its signal and
    of the action it finds there. *)
Definition logs_calls (body : Z -> M unit)
    (g : Z -> sigaction_t -> list event) : Prop :=
  forall sig p p',
    body sig p = Returned tt p' ->
    calls p' = calls p ++ g sig (action_of (sigtab p) sig).

(** The calls of one iteration of each of the four loops, by the action
    the iteration finds. *)
Definition install_with_sigaction_calls (P : platform) (sig : Z) (a : sigaction_t)
  : list event :=
  CallSigactionGet sig
  :: (if decide (sa_handler a = SIG_DFL)
      then [CallSigactionSet sig (Sigaction SpineHandler sigemptyset (SA_RESTART P))]
      else []).

Definition install_with_signal_calls (sig : Z) (a : sigaction_t) : list event :=
  CallSignal sig SpineHandler
  :: (if decide (sa_handler a <> SIG_DFL) then [CallSignal sig (sa_handler a)]
      else []).

Definition uninstall_with_sigaction_calls (sig : Z) (a : sigaction_t) : list event :=
  CallSigactionGet sig
  :: (if decide (sa_handler a = SpineHandler)
      then [CallSigactionSet sig (Sigaction SIG_DFL (sa_mask a) (sa_flags a))]
      else []).

Definition uninstall_with_signal_calls (sig : Z) (a : sigaction_t) : list event :=
  CallSignal sig SIG_DFL
  :: (if decide (sa_handler a <> SpineHandler) then [CallSignal sig (sa_handler a)]
      else []).

(** A process with a frame buffer of ten slots, all of them in use from an
    earlier capture, and ten frames requested. *)
Definition buffered_process : process :=
  Process ∅ (Settings 0 [1; 2; 3; 4; 5; 6; 7; 8; 9; 10] 10) [] [].

(** A loop body whose logged calls account for what it does to the action
    table. *)
Definition replays (P : platform) (body : Z -> M unit) : Prop :=
  forall sig p p',
    body sig p = Returned tt p' ->
    exists es, calls p' = calls p ++ es /\ sigtab p' = replay P es (sigtab p).

(** The process in which the handler, on [SIGSEGV], reaches the block
    under [HAVE_EXECINFO_H]: disposition reset, exit code stored, first
    line written. *)
Definition segv_entry (P : platform) (E : environment) (p : process) : process :=
  Process
    (<[SIGSEGV P := Sigaction SIG_DFL (signal_mask P (SIGSEGV P))
                      (signal_flags P (SIGSEGV P))]> (sigtab p))
    (Settings (SIGSEGV P) (exit_stack (set p)) (exit_size (set p)))
    (stderr p ++ [Fatal (logtime E) "Encountered a Segmentation Fault"])
    (calls p ++ [CallSignal (SIGSEGV P) SIG_DFL; StoreExitCode (SIGSEGV P);
                 CallStrftime;
                 WriteStderr (Fatal (logtime E) "Encountered a Segmentation Fault")]).

Definition is_free (e : event) : bool :=
  match e with CallFree => true | _ => false end.

(** The surroundings seven seconds later. *)
Definition later_environment : environment :=
  Environment "2026-01-01 00:00:07" [4198400; 4198912] None.

(** A fresh process after install. *)
Definition installed_process : process :=
  final (install_spine_signal_handler linux_glibc (fresh_process 3)).

(** ** The loops over the table *)

Lemma platform_ok_nonzero P :
  platform_ok P = true -> Forall (fun s => s <> 0) (monitored_signals P).
Proof.
  unfold platform_ok. rewrite !andb_true_iff. intros [[Hpos _] _].
  rewrite forallb_forall in Hpos. apply Forall_forall. intros s Hs.
  apply list_elem_of_In, Hpos, Z.ltb_lt in Hs. lia.
Qed.

Lemma platform_ok_nodup P :
  platform_ok P = true -> NoDup (monitored_signals P).
Proof.
  unfold platform_ok. rewrite !andb_true_iff. intros [[_ Hnd] _].
  by apply bool_decide_eq_true in Hnd.
Qed.

Lemma spine_fatal_signals_sentinel P :
  spine_fatal_signals P = monitored_signals P ++ [0].
Proof. reflexivity. Qed.

Lemma action_of_insert t sig a s :
  action_of (<[sig := a]> t) s = if decide (s = sig) then a else action_of t s.
Proof.
  unfold action_of. destruct (decide (s = sig)) as [->|Hne].
  - by rewrite lookup_insert_eq.
  - by rewrite lookup_insert_ne.
Qed.

Lemma for_each_signal_spec body f l :
  rewrites_action body f ->
  Forall (fun s => s <> 0) l -> NoDup l ->
  forall p, exists p',
    for_each_signal body (l ++ [0]) p = Returned tt p'
    /\ (forall s, action_of (sigtab p') s =
                  if decide (s ∈ l) then f s (action_of (sigtab p) s)
                  else action_of (sigtab p) s)
    /\ set p' = set p /\ stderr p' = stderr p.
Proof.
  intros Hbody. induction l as [|sig l IH]; intros Hnz Hnd p.
  - exists p. simpl. by repeat split.
  - apply Forall_cons in Hnz as [Hsig Hnz]. apply NoDup_cons in Hnd as [Hnotin Hnd].
    destruct (Hbody sig p) as (p1 & Hrun & Htab & Hset & Herr).
    destruct (IH Hnz Hnd p1) as (p2 & Hrun2 & Htab2 & Hset2 & Herr2).
    exists p2. simpl. apply Z.eqb_neq in Hsig. rewrite Hsig.
    unfold bind. rewrite Hrun, Hrun2. repeat split; try congruence.
    intros s. rewrite Htab2, !Htab.
    destruct (decide (s = sig)) as [->|Hne].
    + rewrite decide_False by done.
      rewrite decide_True by (apply list_elem_of_In; by left). done.
    + destruct (decide (s ∈ l)) as [Hin|Hnin].
      * rewrite decide_True by (apply list_elem_of_In; right; by apply list_elem_of_In).
        done.
      * rewrite decide_False; [done|].
        intros [Heq|Hin]%list_elem_of_In; [congruence|].
        by apply Hnin, list_elem_of_In.
Qed.

Lemma install_with_sigaction_rewrites P :
  rewrites_action (install_with_sigaction P)
    (fun _ a => if decide (sa_handler a = SIG_DFL)
                then Sigaction SpineHandler sigemptyset (SA_RESTART P) else a).
Proof.
  intros sig p. unfold install_with_sigaction, bind, sigaction_get.
  destruct (decide (sa_handler (action_of (sigtab p) sig) = SIG_DFL)) as [Hd|Hd].
  - eexists. split; [reflexivity|]. simpl. repeat split.
    intros s. rewrite action_of_insert. by destruct (decide (s = sig)).
  - eexists. split; [reflexivity|]. simpl. repeat split.
    intros s. by destruct (decide (s = sig)) as [->|].
Qed.

Lemma install_with_signal_rewrites P :
  rewrites_action (install_with_signal P) (install_action P).
Proof.
  intros sig p. unfold install_with_signal, install_action, bind, signal.
  destruct (decide (sa_handler (action_of (sigtab p) sig) <> SIG_DFL)) as [Hd|Hd].
  - eexists. split; [reflexivity|]. simpl. repeat split.
    intros s. rewrite !action_of_insert.
    destruct (decide (s = sig)); [|done]. by rewrite decide_False.
  - eexists. split; [reflexivity|]. simpl. repeat split.
    intros s. rewrite !action_of_insert.
    destruct (decide (s = sig)); [|done].
    rewrite decide_True; [done|]. by destruct (decide (sa_handler (action_of (sigtab p) sig) = SIG_DFL)).
Qed.

Lemma uninstall_with_sigaction_rewrites :
  rewrites_action uninstall_with_sigaction
    (fun _ a => if decide (sa_handler a = SpineHandler)
                then Sigaction SIG_DFL (sa_mask a) (sa_flags a) else a).
Proof.
  intros sig p. unfold uninstall_with_sigaction, bind, sigaction_get.
  destruct (decide (sa_handler (action_of (sigtab p) sig) = SpineHandler)) as [Hd|Hd].
  - eexists. split; [reflexivity|]. simpl. repeat split.
    intros s. rewrite action_of_insert. by destruct (decide (s = sig)).
  - eexists. split; [reflexivity|]. simpl. repeat split.
    intros s. by destruct (decide (s = sig)) as [->|].
Qed.

Lemma uninstall_with_signal_rewrites P :
  rewrites_action (uninstall_with_signal P) (uninstall_action P).
Proof.
  intros sig p. unfold uninstall_with_signal, uninstall_action, bind, signal.
  destruct (decide (sa_handler (action_of (sigtab p) sig) <> SpineHandler)) as [Hd|Hd].
  - eexists. split; [reflexivity|]. simpl. repeat split.
    intros s. rewrite !action_of_insert.
    destruct (decide (s = sig)); [|done]. by rewrite decide_False.
  - eexists. split; [reflexivity|]. simpl. repeat split.
    intros s. rewrite !action_of_insert.
    destruct (decide (s = sig)); [|done].
    rewrite decide_True; [done|].
    by destruct (decide (sa_handler (action_of (sigtab p) sig) = SpineHandler)).
Qed.

(** The first pass of install, on its own. *)
Lemma install_first_pass_spec P p :
  platform_ok P = true ->
  exists p',
    for_each_signal (install_with_sigaction P) (spine_fatal_signals P) p
    = Returned tt p'
    /\ (forall s, action_of (sigtab p') s =
                  if decide (monitored P s) then
                    if decide (sa_handler (action_of (sigtab p) s) = SIG_DFL)
                    then Sigaction SpineHandler sigemptyset (SA_RESTART P)
                    else action_of (sigtab p) s
                  else action_of (sigtab p) s)
    /\ set p' = set p /\ stderr p' = stderr p.
Proof.
  intros Hok. rewrite spine_fatal_signals_sentinel.
  apply (for_each_signal_spec _ _ _ (install_with_sigaction_rewrites P)
           (platform_ok_nonzero P Hok) (platform_ok_nodup P Hok) p).
Qed.

(** install returns, and rewrites the action of exactly the table signals. *)
Lemma install_spec P p :
  platform_ok P = true ->
  exists p',
    install_spine_signal_handler P p = Returned tt p'
    /\ (forall s, action_of (sigtab p') s =
                  if decide (monitored P s)
                  then install_action P s (action_of (sigtab p) s)
                  else action_of (sigtab p) s)
    /\ set p' = set p /\ stderr p' = stderr p.
Proof.
  intros Hok.
  destruct (install_first_pass_spec P p Hok) as (p1 & Hrun1 & Htab1 & Hset1 & Herr1).
  destruct (for_each_signal_spec _ _ _ (install_with_signal_rewrites P)
              (platform_ok_nonzero P Hok) (platform_ok_nodup P Hok) p1)
    as (p2 & Hrun2 & Htab2 & Hset2 & Herr2).
  exists p2. unfold install_spine_signal_handler, bind.
  rewrite Hrun1. rewrite spine_fatal_signals_sentinel, Hrun2.
  repeat split; try congruence.
  intros s. rewrite Htab2, Htab1. unfold monitored.
  destruct (decide (s ∈ monitored_signals P)); [|done].
  unfold install_action.
  destruct (decide (sa_handler (action_of (sigtab p) s) = SIG_DFL)) as [Heq|Hne];
    simpl; [done|by rewrite decide_False].
Qed.

(** uninstall returns, and rewrites the action of exactly the table signals. *)
Lemma uninstall_spec P p :
  platform_ok P = true ->
  exists p',
    uninstall_spine_signal_handler P p = Returned tt p'
    /\ (forall s, action_of (sigtab p') s =
                  if decide (monitored P s)
                  then uninstall_action P s (action_of (sigtab p) s)
                  else action_of (sigtab p) s)
    /\ set p' = set p /\ stderr p' = stderr p.
Proof.
  intros Hok.
  destruct (for_each_signal_spec _ _ _ uninstall_with_sigaction_rewrites
              (platform_ok_nonzero P Hok) (platform_ok_nodup P Hok) p)
    as (p1 & Hrun1 & Htab1 & Hset1 & Herr1).
  destruct (for_each_signal_spec _ _ _ (uninstall_with_signal_rewrites P)
              (platform_ok_nonzero P Hok) (platform_ok_nodup P Hok) p1)
    as (p2 & Hrun2 & Htab2 & Hset2 & Herr2).
  exists p2. unfold uninstall_spine_signal_handler, bind.
  rewrite spine_fatal_signals_sentinel, Hrun1, Hrun2.
  repeat split; try congruence.
  intros s. rewrite Htab2, Htab1. unfold monitored.
  destruct (decide (s ∈ monitored_signals P)); [|done].
  unfold uninstall_action.
  destruct (decide (sa_handler (action_of (sigtab p) s) = SpineHandler)) as [Heq|Hne];
    simpl; [done|by rewrite decide_False].
Qed.

(** ** The handler *)

Lemma print_frames_spec exit_strings todo : forall row p,
  print_frames exit_strings row todo p =
  Returned tt
    (Process (sigtab p) (set p)
       (stderr p ++ frame_lines exit_strings row todo)
       (calls p ++ map WriteStderr (frame_lines exit_strings row todo))).
Proof.
  induction todo as [|todo IH]; intros row p; simpl.
  - rewrite !app_nil_r. by destruct p.
  - unfold bind, fprintf_stderr. rewrite IH. simpl.
    by rewrite <- !app_assoc.
Qed.

Lemma frame_lines_lookup exit_strings todo : forall row i l,
  frame_lines exit_strings row todo !! i = Some l ->
  exists symbol, l = Frame (row + Z.of_nat i) symbol.
Proof.
  induction todo as [|todo IH]; intros row i l; simpl; [done|].
  destruct i as [|i]; simpl.
  - intros [= <-]. eexists. by rewrite Z.add_0_r.
  - intros Hl. destruct (IH _ _ _ Hl) as [symbol ->]. exists symbol. f_equal. lia.
Qed.

Lemma frame_lines_no_fatal exit_strings todo : forall row,
  filter (fun l => is_fatal_line l = true) (frame_lines exit_strings row todo) = [].
Proof.
  induction todo as [|todo IH]; intros row; simpl; [done|].
  rewrite filter_cons_False by (simpl; congruence). apply IH.
Qed.

Lemma reporting_frame_lines exit_strings todo : forall row,
  forallb reporting (map WriteStderr (frame_lines exit_strings row todo)) = true.
Proof. induction todo as [|todo IH]; intros row; simpl; [done|apply IH]. Qed.

(** The block under [HAVE_EXECINFO_H] returns; it adds the "Generating"
    line and then frame lines only, and leaves the action table and the
    exit code alone. *)
Lemma generate_backtrace_spec E p :
  exists set' frames evs,
    generate_backtrace E p =
    Returned tt
      (Process (sigtab p) set'
         (stderr p ++ Generating (exit_size (set p)) :: frames)
         (calls p ++ WriteStderr (Generating (exit_size (set p))) :: evs))
    /\ exit_code set' = exit_code (set p)
    /\ (exists exit_strings todo, frames = frame_lines exit_strings 0 todo)
    /\ forallb reporting evs = true
    /\ (exit_size (set p) = 0 -> set' = set p /\ frames = [] /\ evs = [])
    /\ (symbol_table E = None -> frames = []).
Proof.
  unfold generate_backtrace, bind, load_exit_size, fprintf_stderr. simpl.
  destruct (Z.eqb_spec (exit_size (set p)) 0) as [Hz|Hnz].
  - exists (set p), [], []. unfold ret, called. simpl.
    repeat split; try done. by exists [], O.
  - unfold backtrace, store_exit_size, backtrace_symbols, called. simpl.
    destruct (symbol_table E) as [symbol|].
    + rewrite print_frames_spec. unfold free, called. simpl.
      rewrite <- !app_assoc. simpl.
      eexists _, _, _. split; [reflexivity|]. simpl.
      repeat split; try done.
      * eauto.
      * rewrite forallb_app, reporting_frame_lines. done.
    + unfold ret. simpl. rewrite <- !app_assoc. simpl.
      eexists _, [], _. split; [reflexivity|]. simpl.
      repeat split; try done. by exists [], O.
Qed.

(** One run of the handler, whatever the signal: the process it leaves
    behind, and how the run ends on each side of the [switch]. *)
Lemma handler_shape P E sig p :
  exists set' extra evs,
    final (spine_signal_handler P E sig p) =
    Process
      (<[sig := Sigaction SIG_DFL (signal_mask P sig) (signal_flags P sig)]> (sigtab p))
      set'
      (stderr p ++ Fatal (logtime E) (spec_reason P sig) :: extra)
      (calls p ++ CallSignal sig SIG_DFL :: StoreExitCode sig :: CallStrftime
               :: WriteStderr (Fatal (logtime E) (spec_reason P sig)) :: evs)
    /\ exit_code set' = sig
    /\ forallb reporting evs = true
    /\ filter (fun l => is_fatal_line l = true) extra = []
    /\ (segv_path P sig = false ->
        exit_status (spine_signal_handler P E sig p) = None
        /\ extra = [] /\ evs = []
        /\ set' = Settings sig (exit_stack (set p)) (exit_size (set p)))
    /\ (segv_path P sig = true ->
        exit_status (spine_signal_handler P E sig p) = Some 1
        /\ exists bt,
            evs = bt ++ [CallExit 1]
            /\ if HAVE_EXECINFO_H P then
                 exists frames,
                   extra = Generating (exit_size (set p)) :: frames
                   /\ (exists exit_strings todo,
                          frames = frame_lines exit_strings 0 todo)
                   /\ (exit_size (set p) = 0 ->
                       frames = [] /\ bt = [WriteStderr (Generating 0)]
                       /\ set' = Settings sig (exit_stack (set p)) 0)
                   /\ (symbol_table E = None -> frames = [])
               else
                 extra = [] /\ bt = []
                 /\ set' = Settings sig (exit_stack (set p)) (exit_size (set p))).
Proof.
  unfold spine_signal_handler, segv_path, spec_reason, bind, signal,
    store_exit_code, strftime.
  cbn [called with_sigtab with_set sigtab set stderr calls exit_stack exit_size].
  switch_on sig (SIGABRT P).
  { eexists _, [], []. unfold fprintf_stderr, called. simpl.
    rewrite <- !app_assoc. simpl. by repeat split. }
  switch_on sig (SIGINT P).
  { eexists _, [], []. unfold fprintf_stderr, called. simpl.
    rewrite <- !app_assoc. simpl. by repeat split. }
  switch_on sig (SIGSEGV P).
  - unfold fprintf_stderr, exit.
    cbn [called with_sigtab with_set sigtab set stderr calls exit_stack exit_size].
    destruct (HAVE_EXECINFO_H P).
    + match goal with
      | |- context [generate_backtrace E ?q] =>
          destruct (generate_backtrace_spec E q)
            as (set' & frames & evs & Hrun & Hcode & Hframes & Hrep & Hzero & Hnull);
          rewrite Hrun
      end.
      unfold called.
      cbn [with_sigtab with_set sigtab set stderr calls exit_stack
             exit_size exit_code final exit_status] in *.
      rewrite <- !app_assoc. simpl.
      exists set', (Generating (exit_size (set p)) :: frames),
        (WriteStderr (Generating (exit_size (set p))) :: evs ++ [CallExit 1]).
      split; [reflexivity|]. split; [done|].
      split; [simpl; by rewrite forallb_app, Hrep|].
      split.
      { rewrite filter_cons_False by (simpl; congruence).
        destruct Hframes as (strs & todo & ->). apply frame_lines_no_fatal. }
      split; [done|]. intros _. split; [done|].
      exists (WriteStderr (Generating (exit_size (set p))) :: evs).
      split; [done|]. exists frames. split; [done|]. split; [done|].
      split; [|done].
      intros Hz. destruct (Hzero Hz) as (-> & -> & ->).
      rewrite Hz. by repeat split.
    + unfold ret, called. simpl. rewrite <- !app_assoc. simpl.
      eexists _, [], [CallExit 1]. split; [reflexivity|].
      repeat split; try done. by exists [].
  - switch_on sig (SIGBUS P).
    { eexists _, [], []. unfold fprintf_stderr, called. simpl.
      rewrite <- !app_assoc. simpl. by repeat split. }
    switch_on sig (SIGFPE P).
    { eexists _, [], []. unfold fprintf_stderr, called. simpl.
      rewrite <- !app_assoc. simpl. by repeat split. }
    switch_on sig (SIGQUIT P).
    { eexists _, [], []. unfold fprintf_stderr, called. simpl.
      rewrite <- !app_assoc. simpl. by repeat split. }
    switch_on sig (SIGPIPE P).
    { eexists _, [], []. unfold fprintf_stderr, called. simpl.
      rewrite <- !app_assoc. simpl. by repeat split. }
    eexists _, [], []. unfold fprintf_stderr, called. simpl.
    rewrite <- !app_assoc. simpl. by repeat split.
Qed.

Lemma platform_ok_distinct P i j a b :
  platform_ok P = true ->
  monitored_signals P !! i = Some a -> monitored_signals P !! j = Some b ->
  i <> j -> a <> b.
Proof.
  intros Hok Hi Hj Hij ->. apply Hij.
  eapply NoDup_lookup; eauto using platform_ok_nodup.
Qed.

Lemma segv_path_sound P sig : segv_path P sig = true -> sig = SIGSEGV P.
Proof.
  unfold segv_path. rewrite !andb_true_iff. intros [_ Heq]. by apply Z.eqb_eq.
Qed.

Lemma segv_path_complete P :
  platform_ok P = true -> segv_path P (SIGSEGV P) = true.
Proof.
  intros Hok. unfold segv_path. rewrite Z.eqb_refl.
  assert (SIGSEGV P <> SIGABRT P) as H1
    by (apply (platform_ok_distinct P 2%nat 7%nat); done).
  assert (SIGSEGV P <> SIGINT P) as H2
    by (apply (platform_ok_distinct P 2%nat 0%nat); done).
  apply Z.eqb_neq in H1, H2. by rewrite H1, H2.
Qed.

Lemma written_app {A} p (o : outcome A) ls :
  stderr (final o) = stderr p ++ ls -> written p o = ls.
Proof. unfold written. intros ->. apply drop_app_length. Qed.

Lemma performed_app {A} p (o : outcome A) es :
  calls (final o) = calls p ++ es -> performed p o = es.
Proof. unfold performed. intros ->. apply drop_app_length. Qed.

(** ** install and uninstall *)

(** C3. Round trip: a monitored signal at the default disposition is at
    this file's handler after install and back at the default, the
    disposition it had before, after the uninstall that follows. *)
Theorem install_uninstall_round_trip P p sig :
  platform_ok P = true -> monitored P sig -> disposition p sig = SIG_DFL ->
  disposition (final (install_spine_signal_handler P p)) sig = SpineHandler
  /\ disposition
       (final (uninstall_spine_signal_handler P
                 (final (install_spine_signal_handler P p)))) sig
     = disposition p sig
  /\ disposition
       (final (uninstall_spine_signal_handler P
                 (final (install_spine_signal_handler P p)))) sig
     = SIG_DFL.
Proof.
  intros Hok Hsig Hdfl.
  destruct (install_spec P p Hok) as (p1 & -> & Htab1 & _). simpl.
  destruct (uninstall_spec P p1 Hok) as (p2 & -> & Htab2 & _). simpl.
  unfold disposition in *. rewrite Htab2, Htab1.
  destruct (decide (monitored P sig)); [|done].
  unfold uninstall_action, install_action.
  rewrite Hdfl. by simpl.
Qed.

(** C4. Idempotence of install: from any process state, a second install
    in succession leaves the action of every signal (handler, mask and
    flags alike) as the first install left it. *)
Theorem install_idempotent P p sig :
  platform_ok P = true ->
  action_of
    (sigtab (final (install_spine_signal_handler P
                      (final (install_spine_signal_handler P p))))) sig
  = action_of (sigtab (final (install_spine_signal_handler P p))) sig.
Proof.
  intros Hok.
  destruct (install_spec P p Hok) as (p1 & -> & Htab1 & _). simpl.
  destruct (install_spec P p1 Hok) as (p2 & -> & Htab2 & _). simpl.
  rewrite Htab2, Htab1.
  destruct (decide (monitored P sig)); [|done].
  unfold install_action. simpl. f_equal.
  destruct (decide (sa_handler (action_of (sigtab p) sig) = SIG_DFL)).
  - by rewrite decide_False.
  - by rewrite decide_False.
Qed.


(** ** The handler: what it writes, in which order, and what it changes *)

Lemma replay_untouched P es : forall t,
  Forall (fun e => touches_table e = false) es -> replay P es t = t.
Proof.
  unfold replay. induction es as [|e es IH]; intros t Hes; simpl; [done|].
  apply Forall_cons in Hes as [He Hes]. rewrite <- (IH t Hes) at 2.
  f_equal. by destruct e.
Qed.

Lemma replay_cons P e es t :
  replay P (e :: es) t = replay P es (apply_event P t e).
Proof. reflexivity. Qed.

Lemma reporting_untouched es :
  forallb reporting es = true -> Forall (fun e => touches_table e = false) es.
Proof.
  induction es as [|e es IH]; simpl; [constructor|].
  intros [He Hes]%andb_true_iff. constructor; [by destruct e|by apply IH].
Qed.

(** C5. Message selection: for every monitored signal the handler adds to
    standard error exactly one line [<timestamp> FATAL: Spine <reason>],
    the first it writes, with the reason the specification lists for the
    signal: the named reasons for abort, interrupt, bus error, FPE, quit
    and broken pipe, and the generic text with the signal number for
    [SIGSYS]; every signal but [SIGSEGV] writes nothing else. On [SIGINT]
    the output is the single "Interrupted by Console Operator" line and the
    exit code is [SIGINT]. *)
Theorem handler_diagnostic_message P E sig p :
  platform_ok P = true -> monitored P sig ->
  (exists rest,
      stderr (final (spine_signal_handler P E sig p))
      = stderr p ++ Fatal (logtime E) (spec_reason P sig) :: rest
      /\ written p (spine_signal_handler P E sig p)
         = Fatal (logtime E) (spec_reason P sig) :: rest
      /\ length (filter (fun l => is_fatal_line l = true)
                   (written p (spine_signal_handler P E sig p))) = 1%nat
      /\ (sig <> SIGSEGV P -> rest = []))
  /\ render (Fatal (logtime E) (spec_reason P sig))
     = logtime E +:+ " FATAL: Spine " +:+ spec_reason P sig +:+ newline
  /\ (spec_reason P (SIGABRT P) = "Interrupted by Abort Signal"
      /\ spec_reason P (SIGINT P) = "Interrupted by Console Operator"
      /\ spec_reason P (SIGBUS P) = "Encountered a Bus Error"
      /\ spec_reason P (SIGFPE P) = "Encountered a Floating Point Exception"
      /\ spec_reason P (SIGQUIT P) = "Encountered a Keyboard Quit Command"
      /\ spec_reason P (SIGPIPE P) = "Encountered a Broken Pipe"
      /\ spec_reason P (SIGSYS P)
         = "Encountered An Unhandled Exception Signal Number: '"
           +:+ pretty (SIGSYS P) +:+ "'")
  /\ (sig = SIGINT P ->
      written p (spine_signal_handler P E sig p)
      = [Fatal (logtime E) "Interrupted by Console Operator"]
      /\ exit_code (set (final (spine_signal_handler P E sig p))) = SIGINT P).
Proof.
  intros Hok Hsig.
  pose proof (platform_ok_distinct P) as Hd. specialize (fun i j a b => Hd i j a b Hok).
  assert (spec_reason P (SIGINT P) = "Interrupted by Console Operator") as Hint.
  { unfold spec_reason.
    rewrite decide_False by (apply (Hd 0%nat 7%nat); done).
    by rewrite decide_True. }
  destruct (handler_shape P E sig p)
    as (set' & extra & evs & Hfin & Hcode & Hrep & Hnof & Hret & Hsegv).
  assert (written p (spine_signal_handler P E sig p)
          = Fatal (logtime E) (spec_reason P sig) :: extra) as Hw.
  { apply written_app. by rewrite Hfin. }
  split; [|split; [done|split]].
  - exists extra. rewrite Hfin, Hw. split; [done|]. split; [done|]. split.
    + rewrite filter_cons_True by done. simpl. by rewrite Hnof.
    + intros Hne. destruct (segv_path P sig) eqn:Hpath.
      * by apply segv_path_sound in Hpath.
      * by destruct (Hret eq_refl) as (_ & -> & _).
  - unfold spec_reason. repeat split.
    + by rewrite decide_True.
    + done.
    + rewrite decide_False by (apply (Hd 3%nat 7%nat); done).
      rewrite decide_False by (apply (Hd 3%nat 0%nat); done).
      rewrite decide_False by (apply (Hd 3%nat 2%nat); done).
      by rewrite decide_True.
    + rewrite decide_False by (apply (Hd 4%nat 7%nat); done).
      rewrite decide_False by (apply (Hd 4%nat 0%nat); done).
      rewrite decide_False by (apply (Hd 4%nat 2%nat); done).
      rewrite decide_False by (apply (Hd 4%nat 3%nat); done).
      by rewrite decide_True.
    + rewrite decide_False by (apply (Hd 5%nat 7%nat); done).
      rewrite decide_False by (apply (Hd 5%nat 0%nat); done).
      rewrite decide_False by (apply (Hd 5%nat 2%nat); done).
      rewrite decide_False by (apply (Hd 5%nat 3%nat); done).
      rewrite decide_False by (apply (Hd 5%nat 4%nat); done).
      by rewrite decide_True.
    + rewrite decide_False by (apply (Hd 1%nat 7%nat); done).
      rewrite decide_False by (apply (Hd 1%nat 0%nat); done).
      rewrite decide_False by (apply (Hd 1%nat 2%nat); done).
      rewrite decide_False by (apply (Hd 1%nat 3%nat); done).
      rewrite decide_False by (apply (Hd 1%nat 4%nat); done).
      rewrite decide_False by (apply (Hd 1%nat 5%nat); done).
      by rewrite decide_True.
    + rewrite decide_False by (apply (Hd 6%nat 7%nat); done).
      rewrite decide_False by (apply (Hd 6%nat 0%nat); done).
      rewrite decide_False by (apply (Hd 6%nat 2%nat); done).
      rewrite decide_False by (apply (Hd 6%nat 3%nat); done).
      rewrite decide_False by (apply (Hd 6%nat 4%nat); done).
      rewrite decide_False by (apply (Hd 6%nat 5%nat); done).
      rewrite decide_False by (apply (Hd 6%nat 1%nat); done).
      done.
  - intros ->. rewrite Hw, Hfin, Hint. simpl. split; [|done].
    assert (segv_path P (SIGINT P) = false) as Hpath.
    { destruct (segv_path P (SIGINT P)) eqn:Hpath; [|done].
      apply segv_path_sound in Hpath.
      by apply (Hd 0%nat 2%nat) in Hpath. }
    by destruct (Hret Hpath) as (_ & -> & _).
Qed.

(** C6. Reset before anything else: the first thing a run of the handler
    does is [signal (sig, SIG_DFL)], the second is the store of the signal
    number into [set.exit_code], and every call after these two formats
    the time, writes output, captures the backtrace or exits. The call log
    accounts for the action table, and after every non-empty prefix of the
    run the delivered signal is at the default disposition. *)
Theorem handler_resets_first P E sig p :
  calls (final (spine_signal_handler P E sig p))
  = calls p ++ performed p (spine_signal_handler P E sig p)
  /\ sigtab (final (spine_signal_handler P E sig p))
     = replay P (performed p (spine_signal_handler P E sig p)) (sigtab p)
  /\ (exists rest,
         performed p (spine_signal_handler P E sig p)
         = CallSignal sig SIG_DFL :: StoreExitCode sig :: rest
         /\ forallb reporting rest = true)
  /\ (forall n,
         (0 < n <= length (performed p (spine_signal_handler P E sig p)))%nat ->
         sa_handler
           (action_of
              (replay P (take n (performed p (spine_signal_handler P E sig p)))
                 (sigtab p)) sig)
         = SIG_DFL).
Proof.
  destruct (handler_shape P E sig p)
    as (set' & extra & evs & Hfin & Hcode & Hrep & _).
  set (fatal := WriteStderr (Fatal (logtime E) (spec_reason P sig))) in *.
  assert (performed p (spine_signal_handler P E sig p)
          = CallSignal sig SIG_DFL :: StoreExitCode sig :: CallStrftime
              :: fatal :: evs) as Hperf.
  { apply performed_app. by rewrite Hfin. }
  assert (Forall (fun e => touches_table e = false)
            (StoreExitCode sig :: CallStrftime :: fatal :: evs)) as Hrest.
  { repeat constructor. by apply reporting_untouched. }
  rewrite Hperf, Hfin. cbn [sigtab calls]. split; [done|]. split; [|split].
  - rewrite replay_cons, replay_untouched by done. done.
  - eexists. split; [reflexivity|]. done.
  - intros [|n] [Hpos _]; [lia|].
    rewrite firstn_cons, replay_cons, replay_untouched by (by apply Forall_take).
    cbn [apply_event]. by rewrite action_of_insert, decide_True.
Qed.

(** C10. Frame: a run of the handler on signal [sig] changes the action of
    no other signal, leaves [sig] at the default disposition and the signal
    number in [set.exit_code], and off the [SIGSEGV] path leaves the frame
    buffer and its count as they were. *)
Theorem handler_frame P E sig p :
  (forall s, s <> sig ->
     action_of (sigtab (final (spine_signal_handler P E sig p))) s
     = action_of (sigtab p) s)
  /\ disposition (final (spine_signal_handler P E sig p)) sig = SIG_DFL
  /\ exit_code (set (final (spine_signal_handler P E sig p))) = sig
  /\ (sig <> SIGSEGV P ->
      exit_stack (set (final (spine_signal_handler P E sig p)))
      = exit_stack (set p)
      /\ exit_size (set (final (spine_signal_handler P E sig p)))
         = exit_size (set p)).
Proof.
  destruct (handler_shape P E sig p)
    as (set' & extra & evs & Hfin & Hcode & _ & _ & Hret & _).
  unfold disposition. rewrite Hfin. simpl. repeat split.
  - intros s Hs. by rewrite action_of_insert, decide_False.
  - by rewrite action_of_insert, decide_True.
  - done.
  - destruct (segv_path P sig) eqn:Hpath.
    + by apply segv_path_sound in Hpath.
    + by destruct (Hret eq_refl) as (_ & _ & _ & ->).
  - destruct (segv_path P sig) eqn:Hpath.
    + by apply segv_path_sound in Hpath.
    + by destruct (Hret eq_refl) as (_ & _ & _ & ->).
Qed.

(** C2, as the code has it. On [SIGSEGV] the handler writes the
    "Segmentation Fault" line and exits with status 1; in a build with
    [HAVE_EXECINFO_H] it writes in between the "Generating backtrace..."
    line and then frame lines only, numbered from zero, and in a build
    without it nothing more. On every other monitored signal the handler
    returns. *)
Theorem handler_segv_report P E p :
  platform_ok P = true ->
  exit_status (spine_signal_handler P E (SIGSEGV P) p) = Some 1
  /\ (if HAVE_EXECINFO_H P then
        exists frames,
          written p (spine_signal_handler P E (SIGSEGV P) p)
          = Fatal (logtime E) "Encountered a Segmentation Fault"
              :: Generating (exit_size (set p)) :: frames
          /\ forall i l, frames !! i = Some l ->
                         exists symbol, l = Frame (Z.of_nat i) symbol
      else
        written p (spine_signal_handler P E (SIGSEGV P) p)
        = [Fatal (logtime E) "Encountered a Segmentation Fault"])
  /\ (forall sig q, monitored P sig -> sig <> SIGSEGV P ->
        exit_status (spine_signal_handler P E sig q) = None).
Proof.
  intros Hok.
  assert (spec_reason P (SIGSEGV P) = "Encountered a Segmentation Fault") as Hreason.
  { unfold spec_reason.
    rewrite decide_False by (apply (platform_ok_distinct P 2%nat 7%nat); done).
    rewrite decide_False by (apply (platform_ok_distinct P 2%nat 0%nat); done).
    by rewrite decide_True. }
  destruct (handler_shape P E (SIGSEGV P) p)
    as (set' & extra & evs & Hfin & _ & _ & _ & _ & Hsegv).
  destruct (Hsegv (segv_path_complete P Hok)) as (Hexit & bt & _ & Hbuild).
  rewrite Hreason in Hfin.
  assert (written p (spine_signal_handler P E (SIGSEGV P) p)
          = Fatal (logtime E) "Encountered a Segmentation Fault" :: extra) as Hw.
  { apply written_app. by rewrite Hfin. }
  split; [done|]. split.
  - rewrite Hw. destruct (HAVE_EXECINFO_H P).
    + destruct Hbuild as (frames & -> & (strs & todo & ->) & _).
      eexists. split; [reflexivity|].
      intros i l Hl. by apply frame_lines_lookup in Hl.
    + by destruct Hbuild as (-> & _).
  - intros sig q Hsig Hne.
    destruct (handler_shape P E sig q) as (? & ? & ? & _ & _ & _ & _ & Hret & _).
    destruct (segv_path P sig) eqn:Hpath.
    + by apply segv_path_sound in Hpath.
    + by destruct (Hret eq_refl) as (-> & _).
Qed.

(** C8, as the code has it. On the [SIGSEGV] path the handler always
    exits with status 1. In a build with [HAVE_EXECINFO_H]: with a frame
    count of zero it writes "Generating backtrace...0 line(s)..." and goes
    straight to [exit], without capture and without frame lines; when the
    symbol table is [NULL] it writes no frame line. In a build without
    [HAVE_EXECINFO_H] it writes the "Segmentation Fault" line only. *)
Theorem handler_backtrace_degradation P E p :
  platform_ok P = true ->
  exit_status (spine_signal_handler P E (SIGSEGV P) p) = Some 1
  /\ (HAVE_EXECINFO_H P = true ->
      (exit_size (set p) = 0 ->
       written p (spine_signal_handler P E (SIGSEGV P) p)
       = [Fatal (logtime E) "Encountered a Segmentation Fault"; Generating 0]
       /\ performed p (spine_signal_handler P E (SIGSEGV P) p)
          = [CallSignal (SIGSEGV P) SIG_DFL; StoreExitCode (SIGSEGV P);
             CallStrftime;
             WriteStderr (Fatal (logtime E) "Encountered a Segmentation Fault");
             WriteStderr (Generating 0); CallExit 1])
      /\ (symbol_table E = None ->
          written p (spine_signal_handler P E (SIGSEGV P) p)
          = [Fatal (logtime E) "Encountered a Segmentation Fault";
             Generating (exit_size (set p))]))
  /\ (HAVE_EXECINFO_H P = false ->
      written p (spine_signal_handler P E (SIGSEGV P) p)
      = [Fatal (logtime E) "Encountered a Segmentation Fault"])
  /\ render (Generating 0) = "Generating backtrace...0 line(s)..." +:+ newline.
Proof.
  intros Hok.
  assert (spec_reason P (SIGSEGV P) = "Encountered a Segmentation Fault") as Hreason.
  { unfold spec_reason.
    rewrite decide_False by (apply (platform_ok_distinct P 2%nat 7%nat); done).
    rewrite decide_False by (apply (platform_ok_distinct P 2%nat 0%nat); done).
    by rewrite decide_True. }
  destruct (handler_shape P E (SIGSEGV P) p)
    as (set' & extra & evs & Hfin & _ & _ & _ & _ & Hsegv).
  destruct (Hsegv (segv_path_complete P Hok)) as (Hexit & bt & Hevs & Hbuild).
  rewrite Hreason in Hfin.
  assert (written p (spine_signal_handler P E (SIGSEGV P) p)
          = Fatal (logtime E) "Encountered a Segmentation Fault" :: extra) as Hw.
  { apply written_app. by rewrite Hfin. }
  assert (performed p (spine_signal_handler P E (SIGSEGV P) p)
          = CallSignal (SIGSEGV P) SIG_DFL :: StoreExitCode (SIGSEGV P)
              :: CallStrftime
              :: WriteStderr (Fatal (logtime E) "Encountered a Segmentation Fault")
              :: evs) as Hp.
  { apply performed_app. by rewrite Hfin. }
  rewrite Hw, Hp. split; [done|]. split; [|split; [|done]].
  - intros Hhave. rewrite Hhave in Hbuild.
    destruct Hbuild as (frames & -> & _ & Hzero & Hnull). split.
    + intros Hz. destruct (Hzero Hz) as (-> & -> & _). by rewrite Hevs, Hz.
    + intros Hn. by rewrite (Hnull Hn).
  - intros Hhave. rewrite Hhave in Hbuild. by destruct Hbuild as (-> & _).
Qed.

(** ** The statements at concrete inputs *)

(** A segmentation fault with three frames requested, as it appears on
    standard error. *)
Example handler_segv_run :
  map render
    (written (fresh_process 3)
       (spine_signal_handler linux_glibc sample_environment 11 (fresh_process 3)))
  = ["2026-01-01 00:00:00 FATAL: Spine Encountered a Segmentation Fault" +:+ newline;
     "Generating backtrace...3 line(s)..." +:+ newline;
     "  0: spine() [4198400]" +:+ newline;
     "  1: spine() [4198912]" +:+ newline;
     "  2: spine() [4199424]" +:+ newline]
  /\ set (final (spine_signal_handler linux_glibc sample_environment 11
                   (fresh_process 3)))
     = Settings 11 [4198400; 4198912; 4199424] 3.
Proof. split; reflexivity. Qed.

(** The bad-system-call signal has no text of its own. *)
Example handler_sigsys_run :
  map render
    (written (fresh_process 3)
       (spine_signal_handler linux_glibc sample_environment 31 (fresh_process 3)))
  = ["2026-01-01 00:00:00 FATAL: Spine Encountered An Unhandled Exception Signal Number: '31'"
     +:+ newline].
Proof. reflexivity. Qed.

(** The [signal] pass of install registers the handler of another
    component again: the handler is the same, mask and flags are the ones
    [signal] registers. *)
Example install_registers_foreign_handler_again :
  action_of (sigtab shared_process) 13 = Sigaction (ForeignHandler 1) sigemptyset 4
  /\ action_of
       (sigtab (final (install_spine_signal_handler linux_glibc shared_process))) 13
     = Sigaction (ForeignHandler 1) 4096 (SA_RESTART linux_glibc).
Proof. split; reflexivity. Qed.

Lemma install_uninstall_round_trip_witness :
  platform_ok linux_glibc = true /\ monitored linux_glibc 11
  /\ disposition shared_process 11 = SIG_DFL
  /\ disposition (final (install_spine_signal_handler linux_glibc shared_process)) 11
     = SpineHandler
  /\ disposition
       (final (uninstall_spine_signal_handler linux_glibc
                 (final (install_spine_signal_handler linux_glibc shared_process)))) 11
     = SIG_DFL.
Proof.
  assert (platform_ok linux_glibc = true) as Hok by reflexivity.
  assert (monitored linux_glibc 11) as Hsig by (unfold monitored; simpl; repeat constructor).
  assert (disposition shared_process 11 = SIG_DFL) as Hdfl by reflexivity.
  split; [exact Hok|]. split; [exact Hsig|]. split; [exact Hdfl|].
  destruct (install_uninstall_round_trip linux_glibc shared_process 11 Hok Hsig Hdfl)
    as (Hi & _ & Hu).
  split; [exact Hi|exact Hu].
Defined.

Lemma install_idempotent_witness :
  platform_ok linux_glibc = true
  /\ action_of
       (sigtab (final (install_spine_signal_handler linux_glibc
                         (final (install_spine_signal_handler linux_glibc
                                   shared_process))))) 13
     = action_of
         (sigtab (final (install_spine_signal_handler linux_glibc shared_process))) 13.
Proof.
  split; [reflexivity|].
  apply (install_idempotent linux_glibc shared_process 13). reflexivity.
Defined.


Lemma handler_diagnostic_message_witness :
  platform_ok linux_glibc = true /\ monitored linux_glibc 2
  /\ written shared_process
       (spine_signal_handler linux_glibc sample_environment 2 shared_process)
     = [Fatal "2026-01-01 00:00:00" "Interrupted by Console Operator"]
  /\ exit_code
       (set (final (spine_signal_handler linux_glibc sample_environment 2
                      shared_process)))
     = 2.
Proof.
  assert (platform_ok linux_glibc = true) as Hok by reflexivity.
  assert (monitored linux_glibc 2) as Hsig by (unfold monitored; simpl; repeat constructor).
  split; [exact Hok|]. split; [exact Hsig|].
  destruct (handler_diagnostic_message linux_glibc sample_environment 2
              shared_process Hok Hsig) as (_ & _ & _ & Hint).
  apply Hint. reflexivity.
Defined.

Lemma handler_segv_report_witness :
  platform_ok linux_glibc = true
  /\ exit_status
       (spine_signal_handler linux_glibc sample_environment 11 (fresh_process 3))
     = Some 1
  /\ exit_status
       (spine_signal_handler linux_glibc sample_environment 7 (fresh_process 3))
     = None.
Proof.
  assert (platform_ok linux_glibc = true) as Hok by reflexivity.
  split; [exact Hok|].
  destruct (handler_segv_report linux_glibc sample_environment (fresh_process 3) Hok)
    as (Hexit & _ & Hothers).
  split; [exact Hexit|].
  apply Hothers; [unfold monitored; simpl; repeat constructor|].
  intros Heq. discriminate Heq.
Defined.

Lemma handler_backtrace_degradation_witness :
  platform_ok linux_glibc = true
  /\ written (fresh_process 0)
       (spine_signal_handler linux_glibc sample_environment 11 (fresh_process 0))
     = [Fatal "2026-01-01 00:00:00" "Encountered a Segmentation Fault"; Generating 0]
  /\ written (fresh_process 3)
       (spine_signal_handler linux_glibc stripped_environment 11 (fresh_process 3))
     = [Fatal "2026-01-01 00:00:00" "Encountered a Segmentation Fault"; Generating 3].
Proof.
  assert (platform_ok linux_glibc = true) as Hok by reflexivity.
  split; [exact Hok|]. split.
  - destruct (handler_backtrace_degradation linux_glibc sample_environment
                (fresh_process 0) Hok) as (_ & Hhave & _).
    destruct (Hhave eq_refl) as (Hzero & _). apply Hzero. reflexivity.
  - destruct (handler_backtrace_degradation linux_glibc stripped_environment
                (fresh_process 3) Hok) as (_ & Hhave & _).
    destruct (Hhave eq_refl) as (_ & Hnull). apply Hnull. reflexivity.
Defined.

(** C2 as stated fails in a build without [HAVE_EXECINFO_H]: on [SIGSEGV]
    the handler writes the "Segmentation Fault" line and no "Generating
    backtrace..." line before it exits. *)
Lemma segv_without_execinfo_counterexample :
  platform_ok linux_musl = true
  /\ written (fresh_process 3)
       (spine_signal_handler linux_musl sample_environment
          (SIGSEGV linux_musl) (fresh_process 3))
     = [Fatal "2026-01-01 00:00:00" "Encountered a Segmentation Fault"]
  /\ ~ (exists n,
          Generating n ∈
            written (fresh_process 3)
              (spine_signal_handler linux_musl sample_environment
                 (SIGSEGV linux_musl) (fresh_process 3))).
Proof.
  split; [reflexivity|]. split; [reflexivity|].
  intros [n Hn]. vm_compute in Hn.
  apply elem_of_cons in Hn as [Hn|Hn]; [discriminate Hn|].
  by apply elem_of_nil in Hn.
Qed.

(** C8 as stated fails in a build without [HAVE_EXECINFO_H]: with a frame
    count of zero the handler writes no "Generating backtrace...0
    line(s)..." line. *)
Lemma zero_frames_without_execinfo_counterexample :
  platform_ok linux_musl = true
  /\ exit_size (set (fresh_process 0)) = 0
  /\ map render
       (written (fresh_process 0)
          (spine_signal_handler linux_musl stripped_environment
             (SIGSEGV linux_musl) (fresh_process 0)))
     = ["2026-01-01 00:00:00 FATAL: Spine Encountered a Segmentation Fault"
        +:+ newline]
  /\ Generating 0 ∉
       written (fresh_process 0)
         (spine_signal_handler linux_musl stripped_environment
            (SIGSEGV linux_musl) (fresh_process 0)).
Proof.
  split; [reflexivity|]. split; [reflexivity|]. split; [reflexivity|].
  intros Hn. vm_compute in Hn.
  apply elem_of_cons in Hn as [Hn|Hn]; [discriminate Hn|].
  by apply elem_of_nil in Hn.
Qed.


(** ** Further properties of install and uninstall *)

Ltac table_cases :=
  repeat match goal with
  | |- context [decide (monitored ?P ?s)] => destruct (decide (monitored P s))
  | |- context [decide (sa_handler (action_of ?t ?s) = ?h)] =>
      let H := fresh "Hh" in
      destruct (decide (sa_handler (action_of t s) = h)) as [H|H];
      [rewrite ?H in *|]; simpl
  end; solve [done | congruence].

(** X1. install and uninstall return, leave the exit state and standard
    error as they are, and leave the action of every signal outside the
    table as it is. *)
Theorem install_uninstall_touch_table_only P p :
  platform_ok P = true ->
  (exit_status (install_spine_signal_handler P p) = None
   /\ set (final (install_spine_signal_handler P p)) = set p
   /\ stderr (final (install_spine_signal_handler P p)) = stderr p
   /\ forall s, ~ monitored P s ->
        action_of (sigtab (final (install_spine_signal_handler P p))) s
        = action_of (sigtab p) s)
  /\ (exit_status (uninstall_spine_signal_handler P p) = None
      /\ set (final (uninstall_spine_signal_handler P p)) = set p
      /\ stderr (final (uninstall_spine_signal_handler P p)) = stderr p
      /\ forall s, ~ monitored P s ->
           action_of (sigtab (final (uninstall_spine_signal_handler P p))) s
           = action_of (sigtab p) s).
Proof.
  intros Hok. split.
  - destruct (install_spec P p Hok) as (p' & -> & Htab & Hset & Herr). simpl.
    repeat split; try done. intros s Hs. rewrite Htab. by rewrite decide_False.
  - destruct (uninstall_spec P p Hok) as (p' & -> & Htab & Hset & Herr). simpl.
    repeat split; try done. intros s Hs. rewrite Htab. by rewrite decide_False.
Qed.

(** X2. uninstall is idempotent: a second uninstall in succession leaves
    the action of every signal as the first left it. *)
Theorem uninstall_idempotent P p sig :
  platform_ok P = true ->
  action_of
    (sigtab (final (uninstall_spine_signal_handler P
                      (final (uninstall_spine_signal_handler P p))))) sig
  = action_of (sigtab (final (uninstall_spine_signal_handler P p))) sig.
Proof.
  intros Hok.
  destruct (uninstall_spec P p Hok) as (p1 & -> & Htab1 & _). simpl.
  destruct (uninstall_spec P p1 Hok) as (p2 & -> & Htab2 & _). simpl.
  rewrite Htab2, Htab1. unfold uninstall_action. table_cases.
Qed.

(** X3. install undoes uninstall and uninstall undoes install: after
    install, an uninstall followed by an install gives the actions of the
    first install back, and after uninstall, an install followed by an
    uninstall gives the actions of the first uninstall back. *)
Theorem install_uninstall_alternate P p sig :
  platform_ok P = true ->
  action_of
    (sigtab (final (install_spine_signal_handler P
       (final (uninstall_spine_signal_handler P
          (final (install_spine_signal_handler P p))))))) sig
  = action_of (sigtab (final (install_spine_signal_handler P p))) sig
  /\ action_of
       (sigtab (final (uninstall_spine_signal_handler P
          (final (install_spine_signal_handler P
             (final (uninstall_spine_signal_handler P p))))))) sig
     = action_of (sigtab (final (uninstall_spine_signal_handler P p))) sig.
Proof.
  intros Hok. split.
  - destruct (install_spec P p Hok) as (p1 & -> & Htab1 & _). simpl.
    destruct (uninstall_spec P p1 Hok) as (p2 & -> & Htab2 & _). simpl.
    destruct (install_spec P p2 Hok) as (p3 & -> & Htab3 & _). simpl.
    rewrite Htab3, Htab2, Htab1. unfold install_action, uninstall_action.
    table_cases.
  - destruct (uninstall_spec P p Hok) as (p1 & -> & Htab1 & _). simpl.
    destruct (install_spec P p1 Hok) as (p2 & -> & Htab2 & _). simpl.
    destruct (uninstall_spec P p2 Hok) as (p3 & -> & Htab3 & _). simpl.
    rewrite Htab3, Htab2, Htab1. unfold install_action, uninstall_action.
    table_cases.
Qed.

(** X4. Both operations register every table signal again through
    [signal]: whatever handler a monitored signal ends up with, that of
    another component included, its mask and flags after install and after
    uninstall are the ones [signal] registers, not the ones it had. *)
Theorem install_uninstall_register_through_signal P p sig :
  platform_ok P = true -> monitored P sig ->
  action_of (sigtab (final (install_spine_signal_handler P p))) sig
  = Sigaction
      (if decide (disposition p sig = SIG_DFL) then SpineHandler
       else disposition p sig)
      (signal_mask P sig) (signal_flags P sig)
  /\ action_of (sigtab (final (uninstall_spine_signal_handler P p))) sig
     = Sigaction
         (if decide (disposition p sig = SpineHandler) then SIG_DFL
          else disposition p sig)
         (signal_mask P sig) (signal_flags P sig).
Proof.
  intros Hok Hsig. unfold disposition. split.
  - destruct (install_spec P p Hok) as (p' & -> & Htab & _). simpl.
    rewrite Htab. by rewrite decide_True.
  - destruct (uninstall_spec P p Hok) as (p' & -> & Htab & _). simpl.
    rewrite Htab. by rewrite decide_True.
Qed.

(** X5. After install no monitored signal is left at the default
    disposition, and after uninstall no monitored signal has this file's
    handler. *)
Theorem install_uninstall_postconditions P p sig :
  platform_ok P = true -> monitored P sig ->
  disposition (final (install_spine_signal_handler P p)) sig <> SIG_DFL
  /\ disposition (final (uninstall_spine_signal_handler P p)) sig <> SpineHandler.
Proof.
  intros Hok Hsig. unfold disposition. split.
  - destruct (install_spec P p Hok) as (p' & -> & Htab & _). simpl.
    rewrite Htab. unfold install_action. table_cases.
  - destruct (uninstall_spec P p Hok) as (p' & -> & Htab & _). simpl.
    rewrite Htab. unfold uninstall_action. table_cases.
Qed.

(** X6. uninstall after install is uninstall: the install in front changes
    nothing in the action of any signal once uninstall has run. *)
Theorem uninstall_absorbs_install P p sig :
  platform_ok P = true ->
  action_of
    (sigtab (final (uninstall_spine_signal_handler P
                      (final (install_spine_signal_handler P p))))) sig
  = action_of (sigtab (final (uninstall_spine_signal_handler P p))) sig.
Proof.
  intros Hok.
  destruct (install_spec P p Hok) as (p1 & -> & Htab1 & _). simpl.
  destruct (uninstall_spec P p1 Hok) as (p2 & -> & Htab2 & _). simpl.
  destruct (uninstall_spec P p Hok) as (p3 & -> & Htab3 & _). simpl.
  rewrite Htab2, Htab1, Htab3. unfold install_action, uninstall_action.
  table_cases.
Qed.

(** X7. Round trip of the whole table: when no monitored signal has this
    file's handler, install followed by uninstall gives every signal,
    monitored or not, ignored or owned by another component, the handler
    it had. *)
Theorem install_uninstall_round_trip_all P p :
  platform_ok P = true ->
  (forall s, monitored P s -> disposition p s <> SpineHandler) ->
  forall sig,
    disposition
      (final (uninstall_spine_signal_handler P
                (final (install_spine_signal_handler P p)))) sig
    = disposition p sig.
Proof.
  intros Hok Hnone sig.
  destruct (install_spec P p Hok) as (p1 & -> & Htab1 & _). simpl.
  destruct (uninstall_spec P p1 Hok) as (p2 & -> & Htab2 & _). simpl.
  unfold disposition in *. rewrite Htab2, Htab1.
  destruct (decide (monitored P sig)) as [Hsig|]; [|done].
  specialize (Hnone sig Hsig).
  unfold install_action, uninstall_action. table_cases.
Qed.

(** ** The calls install and uninstall make *)

Lemma flat_map_agree {A B} (f g : A -> list B) l :
  (forall x, x ∈ l -> f x = g x) -> flat_map f l = flat_map g l.
Proof.
  induction l as [|x l IH]; intros Hfg; simpl; [done|].
  rewrite (Hfg x) by (apply list_elem_of_In; by left).
  rewrite IH; [done|]. intros y Hy. apply Hfg, list_elem_of_In. right.
  by apply list_elem_of_In.
Qed.

Lemma for_each_signal_calls body f g l :
  rewrites_action body f -> logs_calls body g ->
  Forall (fun s => s <> 0) l -> NoDup l ->
  forall p p',
    for_each_signal body (l ++ [0]) p = Returned tt p' ->
    calls p' = calls p ++ flat_map (fun s => g s (action_of (sigtab p) s)) l.
Proof.
  intros Hbody Hlog. induction l as [|sig l IH]; intros Hnz Hnd p p' Hrun.
  - simpl in Hrun. injection Hrun as <-. simpl. by rewrite app_nil_r.
  - apply Forall_cons in Hnz as [Hsig Hnz]. apply NoDup_cons in Hnd as [Hnotin Hnd].
    simpl in Hrun. apply Z.eqb_neq in Hsig. rewrite Hsig in Hrun.
    unfold bind in Hrun.
    destruct (Hbody sig p) as (p1 & Hrun1 & Htab1 & _). rewrite Hrun1 in Hrun.
    rewrite (IH Hnz Hnd p1 p' Hrun), (Hlog sig p p1 Hrun1).
    simpl. rewrite <- app_assoc. do 2 f_equal.
    apply flat_map_agree. intros s Hs. rewrite Htab1.
    rewrite decide_False; [done|]. by intros ->.
Qed.

Lemma install_with_sigaction_logs P :
  logs_calls (install_with_sigaction P) (install_with_sigaction_calls P).
Proof.
  intros sig p p'.
  unfold install_with_sigaction, install_with_sigaction_calls, bind, sigaction_get.
  destruct (decide (sa_handler (action_of (sigtab p) sig) = SIG_DFL));
    intros [= <-]; simpl; by rewrite <- ?app_assoc.
Qed.

Lemma install_with_signal_logs P :
  logs_calls (install_with_signal P) install_with_signal_calls.
Proof.
  intros sig p p'.
  unfold install_with_signal, install_with_signal_calls, bind, signal.
  destruct (decide (sa_handler (action_of (sigtab p) sig) <> SIG_DFL));
    intros [= <-]; simpl; by rewrite <- ?app_assoc.
Qed.

Lemma uninstall_with_sigaction_logs :
  logs_calls uninstall_with_sigaction uninstall_with_sigaction_calls.
Proof.
  intros sig p p'.
  unfold uninstall_with_sigaction, uninstall_with_sigaction_calls, bind, sigaction_get.
  destruct (decide (sa_handler (action_of (sigtab p) sig) = SpineHandler));
    intros [= <-]; simpl; by rewrite <- ?app_assoc.
Qed.

Lemma uninstall_with_signal_logs P :
  logs_calls (uninstall_with_signal P) uninstall_with_signal_calls.
Proof.
  intros sig p p'.
  unfold uninstall_with_signal, uninstall_with_signal_calls, bind, signal.
  destruct (decide (sa_handler (action_of (sigtab p) sig) <> SpineHandler));
    intros [= <-]; simpl; by rewrite <- ?app_assoc.
Qed.

(** The calls of the two passes of install, pass by pass. *)
Lemma install_passes_calls P p :
  platform_ok P = true ->
  exists p1 p2,
    install_spine_signal_handler P p = Returned tt p2
    /\ calls p1
       = calls p
         ++ flat_map
              (fun s => install_with_sigaction_calls P s (action_of (sigtab p) s))
              (monitored_signals P)
    /\ calls p2
       = calls p1
         ++ flat_map
              (fun s =>
                 [CallSignal s SpineHandler;
                  CallSignal s
                    (if decide (disposition p s = SIG_DFL) then SpineHandler
                     else disposition p s)])
              (monitored_signals P).
Proof.
  intros Hok.
  pose proof (platform_ok_nonzero P Hok) as Hnz.
  pose proof (platform_ok_nodup P Hok) as Hnd.
  destruct (install_first_pass_spec P p Hok) as (p1 & Hrun1 & Htab1 & _).
  destruct (for_each_signal_spec _ _ _ (install_with_signal_rewrites P) Hnz Hnd p1)
    as (p2 & Hrun2 & _).
  exists p1, p2. split; [|split].
  - unfold install_spine_signal_handler, bind.
    by rewrite Hrun1, spine_fatal_signals_sentinel, Hrun2.
  - rewrite spine_fatal_signals_sentinel in Hrun1.
    apply (for_each_signal_calls _ _ _ _ (install_with_sigaction_rewrites P)
             (install_with_sigaction_logs P) Hnz Hnd _ _ Hrun1).
  - rewrite (for_each_signal_calls _ _ _ _ (install_with_signal_rewrites P)
               (install_with_signal_logs P) Hnz Hnd _ _ Hrun2).
    f_equal. apply flat_map_agree. intros s Hs. rewrite Htab1.
    unfold install_with_signal_calls, disposition.
    destruct (decide (monitored P s)); [|done].
    destruct (decide (sa_handler (action_of (sigtab p) s) = SIG_DFL)) as [Hd|Hd];
      simpl; [done|by rewrite decide_True].
Qed.

(** The calls of the two passes of uninstall, pass by pass. *)
Lemma uninstall_passes_calls P p :
  platform_ok P = true ->
  exists p1 p2,
    uninstall_spine_signal_handler P p = Returned tt p2
    /\ calls p1
       = calls p
         ++ flat_map
              (fun s => uninstall_with_sigaction_calls s (action_of (sigtab p) s))
              (monitored_signals P)
    /\ calls p2
       = calls p1
         ++ flat_map
              (fun s =>
                 [CallSignal s SIG_DFL;
                  CallSignal s
                    (if decide (disposition p s = SpineHandler) then SIG_DFL
                     else disposition p s)])
              (monitored_signals P).
Proof.
  intros Hok.
  pose proof (platform_ok_nonzero P Hok) as Hnz.
  pose proof (platform_ok_nodup P Hok) as Hnd.
  destruct (for_each_signal_spec _ _ _ uninstall_with_sigaction_rewrites Hnz Hnd p)
    as (p1 & Hrun1 & Htab1 & _).
  destruct (for_each_signal_spec _ _ _ (uninstall_with_signal_rewrites P) Hnz Hnd p1)
    as (p2 & Hrun2 & _).
  exists p1, p2. split; [|split].
  - unfold uninstall_spine_signal_handler, bind.
    by rewrite spine_fatal_signals_sentinel, Hrun1, Hrun2.
  - apply (for_each_signal_calls _ _ _ _ uninstall_with_sigaction_rewrites
             uninstall_with_sigaction_logs Hnz Hnd _ _ Hrun1).
  - rewrite (for_each_signal_calls _ _ _ _ (uninstall_with_signal_rewrites P)
               (uninstall_with_signal_logs P) Hnz Hnd _ _ Hrun2).
    f_equal. apply flat_map_agree. intros s Hs. rewrite Htab1.
    unfold uninstall_with_signal_calls, disposition.
    destruct (decide (s ∈ monitored_signals P)); [|done].
    destruct (decide (sa_handler (action_of (sigtab p) s) = SpineHandler)) as [Hd|Hd];
      simpl; [done|by rewrite decide_True].
Qed.

(** X8. The system calls of install, in order: for every table signal a
    [sigaction] query, followed by a [sigaction] registration where the
    query found the default; then, for every table signal and whatever was
    found, [signal] with this file's handler followed by a second [signal]
    with the handler the signal is to keep. The second call is never left
    out: after the first pass no table signal is at the default. *)
Theorem install_call_log P p :
  platform_ok P = true ->
  performed p (install_spine_signal_handler P p)
  = flat_map
      (fun s =>
         CallSigactionGet s
         :: (if decide (disposition p s = SIG_DFL)
             then [CallSigactionSet s
                     (Sigaction SpineHandler sigemptyset (SA_RESTART P))]
             else []))
      (monitored_signals P)
    ++ flat_map
         (fun s =>
            [CallSignal s SpineHandler;
             CallSignal s
               (if decide (disposition p s = SIG_DFL) then SpineHandler
                else disposition p s)])
         (monitored_signals P).
Proof.
  intros Hok.
  destruct (install_passes_calls P p Hok) as (p1 & p2 & -> & Hc1 & Hc2).
  apply performed_app. simpl. by rewrite Hc2, Hc1, <- app_assoc.
Qed.

(** X9. The system calls of uninstall, in order: for every table signal a
    [sigaction] query, followed by a [sigaction] registration of the
    default, with mask and flags as found, where the query found this
    file's handler; then, for every table signal, [signal] with the
    default followed by a second [signal] with the handler the signal is
    to keep. *)
Theorem uninstall_call_log P p :
  platform_ok P = true ->
  performed p (uninstall_spine_signal_handler P p)
  = flat_map
      (fun s =>
         CallSigactionGet s
         :: (if decide (disposition p s = SpineHandler)
             then [CallSigactionSet s
                     (Sigaction SIG_DFL (sa_mask (action_of (sigtab p) s))
                        (sa_flags (action_of (sigtab p) s)))]
             else []))
      (monitored_signals P)
    ++ flat_map
         (fun s =>
            [CallSignal s SIG_DFL;
             CallSignal s
               (if decide (disposition p s = SpineHandler) then SIG_DFL
                else disposition p s)])
         (monitored_signals P).
Proof.
  intros Hok.
  destruct (uninstall_passes_calls P p Hok) as (p1 & p2 & -> & Hc1 & Hc2).
  apply performed_app. simpl. by rewrite Hc2, Hc1, <- app_assoc.
Qed.

Lemma replay_app P es1 es2 t :
  replay P (es1 ++ es2) t = replay P es2 (replay P es1 t).
Proof. unfold replay. apply foldl_app. Qed.

Lemma for_each_signal_replays P body table :
  replays P body ->
  forall p p',
    for_each_signal body table p = Returned tt p' ->
    exists es, calls p' = calls p ++ es /\ sigtab p' = replay P es (sigtab p).
Proof.
  intros Hbody. induction table as [|sig table IH]; intros p p' Hrun; simpl in Hrun.
  - injection Hrun as <-. exists []. by rewrite app_nil_r.
  - destruct (sig =? 0).
    + injection Hrun as <-. exists []. by rewrite app_nil_r.
    + unfold bind in Hrun. destruct (body sig p) as [[] p1|] eqn:Hrun1; [|done].
      destruct (Hbody _ _ _ Hrun1) as (es1 & Hc1 & Ht1).
      destruct (IH _ _ Hrun) as (es2 & Hc2 & Ht2).
      exists (es1 ++ es2). rewrite Hc2, Hc1, Ht2, Ht1, replay_app.
      by rewrite <- app_assoc.
Qed.

Lemma install_with_sigaction_replays P : replays P (install_with_sigaction P).
Proof.
  intros sig p p'. unfold install_with_sigaction, bind, sigaction_get.
  destruct (decide (sa_handler (action_of (sigtab p) sig) = SIG_DFL));
    intros [= <-]; simpl; rewrite <- ?app_assoc; eexists; split; done.
Qed.

Lemma install_with_signal_replays P : replays P (install_with_signal P).
Proof.
  intros sig p p'. unfold install_with_signal, bind, signal.
  destruct (decide (sa_handler (action_of (sigtab p) sig) <> SIG_DFL));
    intros [= <-]; simpl; rewrite <- ?app_assoc; eexists; split; done.
Qed.

Lemma uninstall_with_sigaction_replays P : replays P uninstall_with_sigaction.
Proof.
  intros sig p p'. unfold uninstall_with_sigaction, bind, sigaction_get.
  destruct (decide (sa_handler (action_of (sigtab p) sig) = SpineHandler));
    intros [= <-]; simpl; rewrite <- ?app_assoc; eexists; split; done.
Qed.

Lemma uninstall_with_signal_replays P : replays P (uninstall_with_signal P).
Proof.
  intros sig p p'. unfold uninstall_with_signal, bind, signal.
  destruct (decide (sa_handler (action_of (sigtab p) sig) <> SpineHandler));
    intros [= <-]; simpl; rewrite <- ?app_assoc; eexists; split; done.
Qed.

Lemma install_replays P p :
  platform_ok P = true ->
  sigtab (final (install_spine_signal_handler P p))
  = replay P (performed p (install_spine_signal_handler P p)) (sigtab p).
Proof.
  intros Hok.
  destruct (install_first_pass_spec P p Hok) as (p1 & Hrun1 & _).
  destruct (for_each_signal_spec _ _ _ (install_with_signal_rewrites P)
              (platform_ok_nonzero P Hok) (platform_ok_nodup P Hok) p1)
    as (p2 & Hrun2 & _).
  rewrite <- spine_fatal_signals_sentinel in Hrun2.
  destruct (for_each_signal_replays P _ _ (install_with_sigaction_replays P)
              _ _ Hrun1) as (es1 & Hc1 & Ht1).
  destruct (for_each_signal_replays P _ _ (install_with_signal_replays P)
              _ _ Hrun2) as (es2 & Hc2 & Ht2).
  unfold install_spine_signal_handler, bind, performed. rewrite Hrun1, Hrun2. simpl.
  rewrite Hc2, Hc1, <- app_assoc, drop_app_length, replay_app. congruence.
Qed.

Lemma uninstall_replays P p :
  platform_ok P = true ->
  sigtab (final (uninstall_spine_signal_handler P p))
  = replay P (performed p (uninstall_spine_signal_handler P p)) (sigtab p).
Proof.
  intros Hok.
  destruct (for_each_signal_spec _ _ _ uninstall_with_sigaction_rewrites
              (platform_ok_nonzero P Hok) (platform_ok_nodup P Hok) p)
    as (p1 & Hrun1 & _).
  destruct (for_each_signal_spec _ _ _ (uninstall_with_signal_rewrites P)
              (platform_ok_nonzero P Hok) (platform_ok_nodup P Hok) p1)
    as (p2 & Hrun2 & _).
  rewrite <- spine_fatal_signals_sentinel in Hrun1, Hrun2.
  destruct (for_each_signal_replays P _ _ (uninstall_with_sigaction_replays P)
              _ _ Hrun1) as (es1 & Hc1 & Ht1).
  destruct (for_each_signal_replays P _ _ (uninstall_with_signal_replays P)
              _ _ Hrun2) as (es2 & Hc2 & Ht2).
  unfold uninstall_spine_signal_handler, bind, performed. rewrite Hrun1, Hrun2. simpl.
  rewrite Hc2, Hc1, <- app_assoc, drop_app_length, replay_app. congruence.
Qed.

Lemma flat_map_split {A B} (f : A -> list B) l x :
  x ∈ l ->
  exists l1 l2, flat_map f l = flat_map f l1 ++ f x ++ flat_map f l2.
Proof.
  intros (l1 & l2 & ->)%list_elem_of_split. exists l1, l2.
  by rewrite flat_map_app.
Qed.

(** X10. Both operations take a signal away from its owner for the time
    between two calls. For a monitored signal whose handler [h] is neither
    the default nor this file's: install calls [signal] with this file's
    handler and, next, [signal] with [h], so in between the signal has this
    file's handler; uninstall calls [signal] with the default and, next,
    [signal] with [h], so in between the signal is at the default. The
    logged calls account for the action table of the outcome. *)
Theorem install_uninstall_transient P p sig h :
  platform_ok P = true -> monitored P sig ->
  disposition p sig = h -> h <> SIG_DFL -> h <> SpineHandler ->
  (sigtab (final (install_spine_signal_handler P p))
   = replay P (performed p (install_spine_signal_handler P p)) (sigtab p)
   /\ exists pre post,
        performed p (install_spine_signal_handler P p)
        = pre ++ CallSignal sig SpineHandler :: CallSignal sig h :: post
        /\ sa_handler
             (action_of
                (replay P (pre ++ [CallSignal sig SpineHandler]) (sigtab p)) sig)
           = SpineHandler)
  /\ (sigtab (final (uninstall_spine_signal_handler P p))
      = replay P (performed p (uninstall_spine_signal_handler P p)) (sigtab p)
      /\ exists pre post,
           performed p (uninstall_spine_signal_handler P p)
           = pre ++ CallSignal sig SIG_DFL :: CallSignal sig h :: post
           /\ sa_handler
                (action_of
                   (replay P (pre ++ [CallSignal sig SIG_DFL]) (sigtab p)) sig)
              = SIG_DFL).
Proof.
  intros Hok Hsig Hh Hdfl Hspine. split.
  - split; [by apply install_replays|].
    destruct (install_passes_calls P p Hok) as (p1 & p2 & Hrun & Hc1 & Hc2).
    rewrite Hrun.
    destruct (flat_map_split
                (fun s =>
                   [CallSignal s SpineHandler;
                    CallSignal s
                      (if decide (disposition p s = SIG_DFL) then SpineHandler
                       else disposition p s)])
                (monitored_signals P) sig Hsig) as (l1 & l2 & Hsplit).
    rewrite Hsplit, Hc1 in Hc2. rewrite decide_False in Hc2 by congruence.
    rewrite Hh in Hc2.
    match type of Hc2 with
    | _ = (_ ++ ?first) ++ ?second ++ _ ++ ?rest =>
        exists (first ++ second), rest
    end.
    split.
    + apply performed_app. cbn [final calls]. rewrite Hc2, <- !app_assoc. reflexivity.
    + rewrite replay_app. cbn [replay foldl apply_event].
      by rewrite action_of_insert, decide_True.
  - split; [by apply uninstall_replays|].
    destruct (uninstall_passes_calls P p Hok) as (p1 & p2 & Hrun & Hc1 & Hc2).
    rewrite Hrun.
    destruct (flat_map_split
                (fun s =>
                   [CallSignal s SIG_DFL;
                    CallSignal s
                      (if decide (disposition p s = SpineHandler) then SIG_DFL
                       else disposition p s)])
                (monitored_signals P) sig Hsig) as (l1 & l2 & Hsplit).
    rewrite Hsplit, Hc1 in Hc2. rewrite decide_False in Hc2 by congruence.
    rewrite Hh in Hc2.
    match type of Hc2 with
    | _ = (_ ++ ?first) ++ ?second ++ _ ++ ?rest =>
        exists (first ++ second), rest
    end.
    split.
    + apply performed_app. cbn [final calls]. rewrite Hc2, <- !app_assoc. reflexivity.
    + rewrite replay_app. cbn [replay foldl apply_event].
      by rewrite action_of_insert, decide_True.
Qed.

(** ** Further properties of the handler *)

Lemma handler_table P E sig p s :
  action_of (sigtab (final (spine_signal_handler P E sig p))) s
  = if decide (s = sig)
    then Sigaction SIG_DFL (signal_mask P sig) (signal_flags P sig)
    else action_of (sigtab p) s.
Proof.
  destruct (handler_shape P E sig p) as (set' & extra & evs & -> & _).
  simpl. apply action_of_insert.
Qed.

Lemma handler_returns P E sig p :
  sig <> SIGSEGV P -> exit_status (spine_signal_handler P E sig p) = None.
Proof.
  intros Hne.
  destruct (handler_shape P E sig p) as (? & ? & ? & _ & _ & _ & _ & Hret & _).
  destruct (segv_path P sig) eqn:Hpath.
  - by apply segv_path_sound in Hpath.
  - by destruct (Hret eq_refl) as (-> & _).
Qed.

(** X11. The handler is one-shot and install arms it again. From a process
    with a monitored signal [s] at the default: after install and one
    delivery of a monitored signal [sig] other than [SIGSEGV], the handler
    has returned, [s] has this file's handler unless it is the delivered
    signal, which is at the default; a new install gives [s] the handler
    again in either case, and uninstall leaves [s] at the default in
    either case. *)
Theorem handler_one_shot P E sig s p :
  platform_ok P = true -> monitored P sig -> sig <> SIGSEGV P ->
  monitored P s -> disposition p s = SIG_DFL ->
  exit_status
    (spine_signal_handler P E sig (final (install_spine_signal_handler P p)))
  = None
  /\ disposition
       (final (spine_signal_handler P E sig
                 (final (install_spine_signal_handler P p)))) s
     = (if decide (s = sig) then SIG_DFL else SpineHandler)
  /\ disposition
       (final (install_spine_signal_handler P
                 (final (spine_signal_handler P E sig
                           (final (install_spine_signal_handler P p)))))) s
     = SpineHandler
  /\ disposition
       (final (uninstall_spine_signal_handler P
                 (final (spine_signal_handler P E sig
                           (final (install_spine_signal_handler P p)))))) s
     = SIG_DFL.
Proof.
  intros Hok Hsig Hne Hs Hdfl. unfold disposition in *.
  destruct (install_spec P p Hok) as (p1 & -> & Htab1 & _). simpl.
  split; [by apply handler_returns|].
  destruct (install_spec P (final (spine_signal_handler P E sig p1)) Hok)
    as (p3 & -> & Htab3 & _).
  destruct (uninstall_spec P (final (spine_signal_handler P E sig p1)) Hok)
    as (p4 & -> & Htab4 & _).
  simpl. rewrite Htab3, Htab4, !handler_table, Htab1.
  destruct (decide (monitored P s)); [|done].
  unfold install_action, uninstall_action.
  rewrite Hdfl. destruct (decide (s = sig)); by simpl.
Qed.

Lemma int_of_long_small v : 0 <= v < 2 ^ 31 -> int_of_long v = v.
Proof. intros Hv. unfold int_of_long. rewrite Z.mod_small; lia. Qed.

(** On [SIGSEGV] the handler resets, stores, writes its first line, runs
    the backtrace block where the build has one, and exits. *)
Lemma handler_segv_unfold P E p :
  platform_ok P = true ->
  spine_signal_handler P E (SIGSEGV P) p
  = match (if HAVE_EXECINFO_H P then generate_backtrace E else ret tt)
            (segv_entry P E p) with
    | Returned _ q => Exited 1 (called (CallExit 1) q)
    | Exited status q => Exited status q
    end.
Proof.
  intros Hok.
  assert (SIGSEGV P <> SIGABRT P) as H1
    by (apply (platform_ok_distinct P 2%nat 7%nat); done).
  assert (SIGSEGV P <> SIGINT P) as H2
    by (apply (platform_ok_distinct P 2%nat 0%nat); done).
  apply Z.eqb_neq in H1, H2.
  unfold spine_signal_handler, bind, signal, store_exit_code, strftime.
  cbn [called with_sigtab with_set sigtab set stderr calls exit_stack exit_size].
  rewrite H1, H2, Z.eqb_refl. unfold fprintf_stderr, exit, called.
  cbn [with_sigtab with_set sigtab set stderr calls exit_stack exit_size].
  rewrite <- !app_assoc. reflexivity.
Qed.

Lemma frame_lines_resolved symbol frames : forall pre,
  frame_lines (map symbol (pre ++ frames)) (Z.of_nat (length pre)) (length frames)
  = imap (fun (i : nat) (a : Z) => Frame (Z.of_nat (length pre + i)) (symbol a)) frames.
Proof.
  induction frames as [|a frames IH]; intros pre; simpl; [done|].
  rewrite Nat2Z.id, Nat.add_0_r. f_equal.
  - f_equal. rewrite list_lookup_fmap, lookup_app_r by lia.
    by rewrite Nat.sub_diag.
  - specialize (IH (pre ++ [a])). rewrite <- app_assoc in IH. simpl in IH.
    rewrite length_app in IH. simpl in IH.
    replace (Z.of_nat (length pre + 1)) with (Z.of_nat (length pre) + 1) in IH by lia.
    rewrite IH. apply imap_ext. intros i x _. simpl. do 2 f_equal. lia.
Qed.

(** The block under [HAVE_EXECINFO_H] with a frame count in the range of
    [int] and a resolver that answers. *)
Lemma generate_backtrace_resolved E p symbol :
  symbol_table E = Some symbol -> 0 < exit_size (set p) < 2 ^ 31 ->
  generate_backtrace E p
  = Returned tt
      (Process (sigtab p)
         (Settings (exit_code (set p))
            (take (Z.to_nat (exit_size (set p))) (call_stack E)
             ++ drop (length (take (Z.to_nat (exit_size (set p))) (call_stack E)))
                  (exit_stack (set p)))
            (Z.of_nat (length (take (Z.to_nat (exit_size (set p))) (call_stack E)))))
         (stderr p
          ++ Generating (exit_size (set p))
          :: imap (fun (i : nat) (a : Z) => Frame (Z.of_nat i) (symbol a))
               (take (Z.to_nat (exit_size (set p))) (call_stack E)))
         (calls p
          ++ WriteStderr (Generating (exit_size (set p)))
          :: CallBacktrace (exit_size (set p))
          :: StoreExitSize
               (Z.of_nat (length (take (Z.to_nat (exit_size (set p))) (call_stack E))))
          :: CallBacktraceSymbols
               (Z.of_nat (length (take (Z.to_nat (exit_size (set p))) (call_stack E))))
          :: map WriteStderr
               (imap (fun (i : nat) (a : Z) => Frame (Z.of_nat i) (symbol a))
                  (take (Z.to_nat (exit_size (set p))) (call_stack E)))
          ++ [CallFree])).
Proof.
  intros Hsym Hsize.
  set (frames := take (Z.to_nat (exit_size (set p))) (call_stack E)).
  assert (0 <= Z.of_nat (length frames) < 2 ^ 31) as Hlen.
  { subst frames. rewrite length_take. lia. }
  unfold generate_backtrace, bind, load_exit_size, fprintf_stderr.
  cbn [called with_sigtab with_set sigtab set stderr calls exit_stack exit_size].
  destruct (Z.eqb_spec (exit_size (set p)) 0) as [Hz|_]; [lia|].
  unfold backtrace, store_exit_size, backtrace_symbols, called.
  cbn [with_sigtab with_set sigtab set stderr calls exit_stack exit_size exit_code].
  rewrite Hsym, (int_of_long_small (exit_size (set p))) by lia.
  fold frames. rewrite (int_of_long_small _ Hlen), Nat2Z.id, take_app_length.
  rewrite print_frames_spec. unfold free, called.
  cbn [with_sigtab with_set sigtab set stderr calls exit_stack exit_size exit_code].
  pose proof (frame_lines_resolved symbol frames []) as Hlines.
  change (frame_lines (map symbol frames) 0 (length frames)
          = imap (fun (i : nat) (a : Z) => Frame (Z.of_nat i) (symbol a)) frames)
    in Hlines.
  rewrite Nat2Z.id, Hlines. by rewrite <- !app_assoc.
Qed.

(** X13. The backtrace as printed. In a build with [HAVE_EXECINFO_H], with
    a resolver that answers and a requested frame count [n] in the range
    of [int], the handler on [SIGSEGV] writes, after its two heading
    lines, one line for each of the first [n] return addresses of the call
    stack (all of them when the stack is shallower), innermost first,
    numbered from zero and showing the symbol of that address; it leaves
    these addresses at the start of the frame buffer and their number,
    never more than [n], in [set.exit_size]. *)
Theorem handler_backtrace_frames P E p symbol :
  platform_ok P = true -> HAVE_EXECINFO_H P = true ->
  symbol_table E = Some symbol -> 0 < exit_size (set p) < 2 ^ 31 ->
  written p (spine_signal_handler P E (SIGSEGV P) p)
  = Fatal (logtime E) "Encountered a Segmentation Fault"
    :: Generating (exit_size (set p))
    :: imap (fun (i : nat) (a : Z) => Frame (Z.of_nat i) (symbol a))
         (take (Z.to_nat (exit_size (set p))) (call_stack E))
  /\ take (length (take (Z.to_nat (exit_size (set p))) (call_stack E)))
       (exit_stack (set (final (spine_signal_handler P E (SIGSEGV P) p))))
     = take (Z.to_nat (exit_size (set p))) (call_stack E)
  /\ exit_size (set (final (spine_signal_handler P E (SIGSEGV P) p)))
     = Z.min (exit_size (set p)) (Z.of_nat (length (call_stack E)))
  /\ exit_size (set (final (spine_signal_handler P E (SIGSEGV P) p)))
     <= exit_size (set p).
Proof.
  intros Hok Hhave Hsym Hsize.
  rewrite (handler_segv_unfold P E p Hok), Hhave.
  rewrite (generate_backtrace_resolved E (segv_entry P E p) symbol Hsym Hsize).
  cbn [final called segv_entry sigtab set stderr calls exit_stack exit_size exit_code].
  split; [|split; [|split]].
  - apply written_app. simpl. by rewrite <- app_assoc.
  - by rewrite take_app_length.
  - rewrite length_take. lia.
  - rewrite length_take. lia.
Qed.

Lemma filter_free_frames ls :
  filter (fun e => is_free e = true) (map WriteStderr ls) = [].
Proof.
  induction ls as [|l ls IH]; simpl; [done|].
  by rewrite filter_cons_False by (simpl; congruence).
Qed.

Lemma generate_backtrace_free E p :
  exists q es,
    generate_backtrace E p = Returned tt q
    /\ calls q = calls p ++ es
    /\ length (filter (fun e => is_free e = true) es)
       = if negb (exit_size (set p) =? 0)
            && match symbol_table E with Some _ => true | None => false end
         then 1%nat else 0%nat.
Proof.
  unfold generate_backtrace, bind, load_exit_size, fprintf_stderr.
  cbn [called with_sigtab with_set sigtab set stderr calls exit_stack exit_size].
  destruct (Z.eqb_spec (exit_size (set p)) 0) as [Hz|Hnz].
  - eexists _, [_]. unfold ret. split; [reflexivity|]. by split.
  - unfold backtrace, store_exit_size, backtrace_symbols, called.
    cbn [with_sigtab with_set sigtab set stderr calls exit_stack exit_size exit_code].
    destruct (symbol_table E) as [symbol|].
    + rewrite print_frames_spec. unfold free, called.
      cbn [with_sigtab with_set sigtab set stderr calls exit_stack exit_size exit_code].
      eexists _, (_ :: _ :: _ :: _ :: map WriteStderr _ ++ [CallFree]).
      split; [reflexivity|]. split; [by rewrite <- !app_assoc|].
      rewrite !filter_cons_False by (simpl; congruence).
      by rewrite filter_app, filter_free_frames.
    + eexists _, [_; _; _; _]. unfold ret. split; [reflexivity|].
      split; [by rewrite <- !app_assoc|done].
Qed.

(** X14. On the [SIGSEGV] path [free] is called exactly once when
    [backtrace_symbols] was called and returned a table (a build with
    [HAVE_EXECINFO_H], a non-zero frame count, a result other than [NULL])
    and not at all otherwise. *)
Theorem handler_frees_symbols_once P E p :
  platform_ok P = true ->
  length (filter (fun e => is_free e = true)
            (performed p (spine_signal_handler P E (SIGSEGV P) p)))
  = if HAVE_EXECINFO_H P
       && negb (exit_size (set p) =? 0)
       && match symbol_table E with Some _ => true | None => false end
    then 1%nat else 0%nat.
Proof.
  intros Hok. rewrite (handler_segv_unfold P E p Hok).
  destruct (HAVE_EXECINFO_H P).
  - destruct (generate_backtrace_free E (segv_entry P E p))
      as (q & es & -> & Hcalls & Hcount).
    rewrite (performed_app p _
               ([CallSignal (SIGSEGV P) SIG_DFL; StoreExitCode (SIGSEGV P);
                 CallStrftime;
                 WriteStderr (Fatal (logtime E) "Encountered a Segmentation Fault")]
                ++ es ++ [CallExit 1])).
    + rewrite !filter_app, !length_app. simpl in Hcount. rewrite Hcount.
      rewrite !filter_cons_False by (simpl; congruence). simpl. lia.
    + cbn [final called calls]. rewrite Hcalls. unfold segv_entry.
      cbn [calls]. by rewrite <- !app_assoc.
  - unfold ret.
    rewrite (performed_app p _
               ([CallSignal (SIGSEGV P) SIG_DFL; StoreExitCode (SIGSEGV P);
                 CallStrftime;
                 WriteStderr (Fatal (logtime E) "Encountered a Segmentation Fault")]
                ++ [CallExit 1])).
    + done.
    + cbn [final called calls segv_entry]. by rewrite <- !app_assoc.
Qed.

(** ** The further properties at concrete inputs *)

Ltac in_table := unfold monitored; simpl; repeat constructor.

Ltac not_in_table H :=
  unfold monitored in H; simpl in H;
  repeat (apply elem_of_cons in H as [H|H]; [discriminate H|]);
  by apply elem_of_nil in H.

Lemma install_uninstall_touch_table_only_witness :
  platform_ok linux_glibc = true
  /\ ~ monitored linux_glibc 15
  /\ action_of
       (sigtab (final (install_spine_signal_handler linux_glibc shared_process))) 15
     = action_of (sigtab shared_process) 15
  /\ stderr (final (uninstall_spine_signal_handler linux_glibc shared_process))
     = stderr shared_process.
Proof.
  assert (platform_ok linux_glibc = true) as Hok by reflexivity.
  assert (~ monitored linux_glibc 15) as Hout by (intros H; not_in_table H).
  split; [exact Hok|]. split; [exact Hout|].
  destruct (install_uninstall_touch_table_only linux_glibc shared_process Hok)
    as [(_ & _ & _ & Hi) (_ & _ & Hu & _)].
  split; [exact (Hi 15 Hout)|exact Hu].
Defined.

Lemma uninstall_idempotent_witness :
  platform_ok linux_glibc = true
  /\ action_of
       (sigtab (final (uninstall_spine_signal_handler linux_glibc
                         (final (uninstall_spine_signal_handler linux_glibc
                                   shared_process))))) 2
     = action_of
         (sigtab (final (uninstall_spine_signal_handler linux_glibc shared_process))) 2.
Proof.
  split; [reflexivity|].
  apply (uninstall_idempotent linux_glibc shared_process 2). reflexivity.
Defined.

Lemma install_uninstall_alternate_witness :
  platform_ok linux_glibc = true
  /\ action_of
       (sigtab (final (install_spine_signal_handler linux_glibc
          (final (uninstall_spine_signal_handler linux_glibc
             (final (install_spine_signal_handler linux_glibc shared_process))))))) 11
     = action_of
         (sigtab (final (install_spine_signal_handler linux_glibc shared_process))) 11.
Proof.
  assert (platform_ok linux_glibc = true) as Hok by reflexivity.
  split; [exact Hok|].
  exact (proj1 (install_uninstall_alternate linux_glibc shared_process 11 Hok)).
Defined.

Lemma install_uninstall_register_through_signal_witness :
  platform_ok linux_glibc = true /\ monitored linux_glibc 13
  /\ action_of (sigtab shared_process) 13
     = Sigaction (ForeignHandler 1) sigemptyset 4
  /\ action_of
       (sigtab (final (uninstall_spine_signal_handler linux_glibc shared_process))) 13
     = Sigaction (ForeignHandler 1) 4096 (SA_RESTART linux_glibc).
Proof.
  assert (platform_ok linux_glibc = true) as Hok by reflexivity.
  assert (monitored linux_glibc 13) as Hsig by in_table.
  split; [exact Hok|]. split; [exact Hsig|]. split; [reflexivity|].
  exact (proj2 (install_uninstall_register_through_signal linux_glibc
                  shared_process 13 Hok Hsig)).
Defined.

Lemma install_uninstall_postconditions_witness :
  platform_ok linux_glibc = true /\ monitored linux_glibc 8
  /\ disposition (final (install_spine_signal_handler linux_glibc shared_process)) 8
     <> SIG_DFL
  /\ disposition (final (uninstall_spine_signal_handler linux_glibc shared_process)) 8
     <> SpineHandler.
Proof.
  assert (platform_ok linux_glibc = true) as Hok by reflexivity.
  assert (monitored linux_glibc 8) as Hsig by in_table.
  split; [exact Hok|]. split; [exact Hsig|].
  exact (install_uninstall_postconditions linux_glibc shared_process 8 Hok Hsig).
Defined.

Lemma uninstall_absorbs_install_witness :
  platform_ok linux_glibc = true
  /\ action_of
       (sigtab (final (uninstall_spine_signal_handler linux_glibc
                         (final (install_spine_signal_handler linux_glibc
                                   shared_process))))) 2
     = action_of
         (sigtab (final (uninstall_spine_signal_handler linux_glibc shared_process))) 2.
Proof.
  split; [reflexivity|].
  apply (uninstall_absorbs_install linux_glibc shared_process 2). reflexivity.
Defined.

Lemma install_uninstall_round_trip_all_witness :
  platform_ok linux_glibc = true
  /\ (forall s, monitored linux_glibc s -> disposition foreign_process s <> SpineHandler)
  /\ disposition
       (final (uninstall_spine_signal_handler linux_glibc
                 (final (install_spine_signal_handler linux_glibc foreign_process)))) 3
     = SIG_IGN.
Proof.
  assert (platform_ok linux_glibc = true) as Hok by reflexivity.
  assert (forall s, monitored linux_glibc s ->
                    disposition foreign_process s <> SpineHandler) as Hnone.
  { intros s Hs. unfold monitored in Hs. simpl in Hs.
    repeat (apply elem_of_cons in Hs as [-> | Hs]; [by vm_compute|]).
    by apply elem_of_nil in Hs. }
  split; [exact Hok|]. split; [exact Hnone|].
  exact (install_uninstall_round_trip_all linux_glibc foreign_process Hok Hnone 3).
Defined.

Lemma install_call_log_witness :
  platform_ok linux_glibc = true
  /\ length (performed shared_process
               (install_spine_signal_handler linux_glibc shared_process))
     = 29%nat.
Proof.
  assert (platform_ok linux_glibc = true) as Hok by reflexivity.
  split; [exact Hok|].
  rewrite (install_call_log linux_glibc shared_process Hok). reflexivity.
Defined.

Lemma uninstall_call_log_witness :
  platform_ok linux_glibc = true
  /\ length (performed shared_process
               (uninstall_spine_signal_handler linux_glibc shared_process))
     = 25%nat.
Proof.
  assert (platform_ok linux_glibc = true) as Hok by reflexivity.
  split; [exact Hok|].
  rewrite (uninstall_call_log linux_glibc shared_process Hok). reflexivity.
Defined.

Lemma install_uninstall_transient_witness :
  platform_ok linux_glibc = true /\ monitored linux_glibc 13
  /\ disposition shared_process 13 = ForeignHandler 1
  /\ exists pre post,
       performed shared_process
         (install_spine_signal_handler linux_glibc shared_process)
       = pre ++ CallSignal 13 SpineHandler :: CallSignal 13 (ForeignHandler 1) :: post
       /\ sa_handler
            (action_of
               (replay linux_glibc (pre ++ [CallSignal 13 SpineHandler])
                  (sigtab shared_process)) 13)
          = SpineHandler.
Proof.
  assert (platform_ok linux_glibc = true) as Hok by reflexivity.
  assert (monitored linux_glibc 13) as Hsig by in_table.
  assert (disposition shared_process 13 = ForeignHandler 1) as Hh by reflexivity.
  split; [exact Hok|]. split; [exact Hsig|]. split; [exact Hh|].
  assert (ForeignHandler 1 <> SIG_DFL) as H1 by discriminate.
  assert (ForeignHandler 1 <> SpineHandler) as H2 by discriminate.
  exact (proj2 (proj1 (install_uninstall_transient linux_glibc shared_process 13
                         (ForeignHandler 1) Hok Hsig Hh H1 H2))).
Defined.

Lemma handler_one_shot_witness :
  platform_ok linux_glibc = true /\ monitored linux_glibc 2 /\ 2 <> SIGSEGV linux_glibc
  /\ monitored linux_glibc 13 /\ disposition (fresh_process 3) 13 = SIG_DFL
  /\ disposition
       (final (spine_signal_handler linux_glibc sample_environment 2
                 (final (install_spine_signal_handler linux_glibc (fresh_process 3)))))
       13
     = SpineHandler.
Proof.
  assert (platform_ok linux_glibc = true) as Hok by reflexivity.
  assert (monitored linux_glibc 2) as Hsig by in_table.
  assert (2 <> SIGSEGV linux_glibc) as Hne by discriminate.
  assert (monitored linux_glibc 13) as Hs by in_table.
  assert (disposition (fresh_process 3) 13 = SIG_DFL) as Hdfl by reflexivity.
  split; [exact Hok|]. split; [exact Hsig|]. split; [exact Hne|].
  split; [exact Hs|]. split; [exact Hdfl|].
  exact (proj1 (proj2 (handler_one_shot linux_glibc sample_environment 2 13
                         (fresh_process 3) Hok Hsig Hne Hs Hdfl))).
Defined.

Lemma handler_backtrace_frames_witness :
  platform_ok linux_glibc = true /\ HAVE_EXECINFO_H linux_glibc = true
  /\ symbol_table sample_environment
     = Some (fun a => "spine() [" +:+ pretty a +:+ "]")
  /\ 0 < exit_size (set buffered_process) < 2 ^ 31
  /\ exit_size
       (set (final (spine_signal_handler linux_glibc sample_environment
                      (SIGSEGV linux_glibc) buffered_process)))
     = Z.min (exit_size (set buffered_process))
         (Z.of_nat (length (call_stack sample_environment))).
Proof.
  assert (platform_ok linux_glibc = true) as Hok by reflexivity.
  assert (0 < exit_size (set buffered_process) < 2 ^ 31) as Hsize
    by (split; reflexivity).
  split; [exact Hok|]. split; [reflexivity|]. split; [reflexivity|].
  split; [exact Hsize|].
  exact (proj1 (proj2 (proj2
           (handler_backtrace_frames linux_glibc sample_environment buffered_process
              _ Hok eq_refl eq_refl Hsize)))).
Defined.

Lemma handler_frees_symbols_once_witness :
  platform_ok linux_glibc = true
  /\ length (filter (fun e => is_free e = true)
               (performed buffered_process
                  (spine_signal_handler linux_glibc sample_environment
                     (SIGSEGV linux_glibc) buffered_process)))
     = 1%nat
  /\ length (filter (fun e => is_free e = true)
               (performed buffered_process
                  (spine_signal_handler linux_glibc stripped_environment
                     (SIGSEGV linux_glibc) buffered_process)))
     = 0%nat.
Proof.
  assert (platform_ok linux_glibc = true) as Hok by reflexivity.
  split; [exact Hok|]. split.
  - exact (handler_frees_symbols_once linux_glibc sample_environment
             buffered_process Hok).
  - exact (handler_frees_symbols_once linux_glibc stripped_environment
             buffered_process Hok).
Defined.

(** Ten frames requested on a stack of four: four lines, four addresses at
    the start of the buffer, the rest of the buffer as it was. *)
Example handler_segv_shallow_stack :
  map render
    (written buffered_process
       (spine_signal_handler linux_glibc sample_environment 11 buffered_process))
  = ["2026-01-01 00:00:00 FATAL: Spine Encountered a Segmentation Fault" +:+ newline;
     "Generating backtrace...10 line(s)..." +:+ newline;
     "  0: spine() [4198400]" +:+ newline;
     "  1: spine() [4198912]" +:+ newline;
     "  2: spine() [4199424]" +:+ newline;
     "  3: spine() [4199936]" +:+ newline]
  /\ set (final (spine_signal_handler linux_glibc sample_environment 11
                   buffered_process))
     = Settings 11 [4198400; 4198912; 4199424; 4199936; 5; 6; 7; 8; 9; 10] 4.
Proof. split; reflexivity. Qed.

(** ** Non-interference, by handler and by action *)






(** X12. Two deliveries in a row, at different times. With the handler
    installed for two different signals, the first of them not
    [SIGSEGV]: the handler returns from the first; the second signal still
    has the handler, so its delivery is caught, while the first is at the
    default, so a new delivery of the first would not be; after the second
    run the exit code holds the second signal, standard error holds the
    line of the first with the time of the first run followed by the line
    of the second with the time of the second, and both signals are at the
    default. *)
Theorem handler_twice P E1 E2 sig1 sig2 p :
  disposition p sig1 = SpineHandler -> disposition p sig2 = SpineHandler ->
  sig1 <> sig2 -> sig1 <> SIGSEGV P ->
  exit_status (spine_signal_handler P E1 sig1 p) = None
  /\ disposition (final (spine_signal_handler P E1 sig1 p)) sig2 = SpineHandler
  /\ disposition (final (spine_signal_handler P E1 sig1 p)) sig1 = SIG_DFL
  /\ exit_code
       (set (final (spine_signal_handler P E2 sig2
                      (final (spine_signal_handler P E1 sig1 p)))))
     = sig2
  /\ (exists rest,
         stderr (final (spine_signal_handler P E2 sig2
                          (final (spine_signal_handler P E1 sig1 p))))
         = stderr p
           ++ Fatal (logtime E1) (spec_reason P sig1)
           :: Fatal (logtime E2) (spec_reason P sig2) :: rest)
  /\ disposition
       (final (spine_signal_handler P E2 sig2
                 (final (spine_signal_handler P E1 sig1 p)))) sig1
     = SIG_DFL
  /\ disposition
       (final (spine_signal_handler P E2 sig2
                 (final (spine_signal_handler P E1 sig1 p)))) sig2
     = SIG_DFL.
Proof.
  intros Hin1 Hin2 Hdiff Hne. split; [by apply handler_returns|].
  unfold disposition in *. rewrite !handler_table.
  rewrite (decide_False (P := sig2 = sig1)) by congruence.
  rewrite (decide_True (P := sig1 = sig1)) by done.
  split; [done|]. split; [done|].
  destruct (handler_shape P E1 sig1 p)
    as (set1 & extra1 & evs1 & Hfin1 & _ & _ & _ & Hret1 & _).
  assert (segv_path P sig1 = false) as Hpath.
  { destruct (segv_path P sig1) eqn:Hpath; [|done].
    by apply segv_path_sound in Hpath. }
  destruct (Hret1 Hpath) as (_ & -> & _ & _).
  destruct (handler_shape P E2 sig2 (final (spine_signal_handler P E1 sig1 p)))
    as (set2 & extra2 & evs2 & Hfin2 & Hcode2 & _).
  rewrite Hfin2, Hfin1. simpl. split; [done|]. split.
  - exists extra2. by rewrite <- app_assoc.
  - split; [|by rewrite decide_True].
    by rewrite decide_False.
Qed.



Lemma handler_twice_witness :
  disposition installed_process 2 = SpineHandler
  /\ disposition installed_process 13 = SpineHandler
  /\ 2 <> 13 /\ 2 <> SIGSEGV linux_glibc
  /\ exit_code
       (set (final (spine_signal_handler linux_glibc later_environment 13
                      (final (spine_signal_handler linux_glibc sample_environment 2
                                installed_process)))))
     = 13
  /\ exists rest,
       stderr (final (spine_signal_handler linux_glibc later_environment 13
                        (final (spine_signal_handler linux_glibc sample_environment 2
                                  installed_process))))
       = stderr installed_process
         ++ Fatal (logtime sample_environment) (spec_reason linux_glibc 2)
         :: Fatal (logtime later_environment) (spec_reason linux_glibc 13) :: rest.
Proof.
  assert (disposition installed_process 2 = SpineHandler) as H1 by reflexivity.
  assert (disposition installed_process 13 = SpineHandler) as H2 by reflexivity.
  assert (2 <> 13) as Hdiff by discriminate.
  assert (2 <> SIGSEGV linux_glibc) as Hne by discriminate.
  split; [exact H1|]. split; [exact H2|]. split; [exact Hdiff|]. split; [exact Hne|].
  destruct (handler_twice linux_glibc sample_environment later_environment 2 13
              installed_process H1 H2 Hdiff Hne) as (_ & _ & _ & Hcode & Hlines & _).
  split; [exact Hcode|exact Hlines].
Defined.


